(** * A library catalogue: books, an in-memory store and the service on top

    Shallow embedding of the three classes of the package
    [book_management] and the properties of its borrow / return counter,
    duplicate-ISBN rule, filtered search, identifier assignment and
    field update.

    - [models/book.py]                   : [Module Book]
    - [repositories/book_repository.py]  : [Module BookRepository]
    - [services/book_service.py]         : [Module BookService]

    Python objects are mutable and shared by reference: the store's list
    holds references, and the service mutates the object it looked up.  The
    embedding keeps that: book objects live in a heap, the store's list
    holds references into it, and a method that mutates [self] writes the
    heap cell. *)

From Stdlib Require Import ZArith String List Bool Lia SpecFloat.
From stdpp Require Import base tactics option list strings.

#[local] Open Scope string_scope.
#[local] Open Scope list_scope.
#[local] Open Scope Z_scope.

(** ** Values *)

(** A naive [datetime], as the number of microseconds since
    [datetime.min]; the code only stores and copies such values. *)
Definition datetime : Type := Z.

(** Python's [float] is an IEEE 754 binary64 number; the code only stores
    prices. *)
Definition float : Type := spec_float.

(** The values that are stored in the attributes of a book, as they are
    passed by keyword to [update_book]; a dictionary lists its items in
    order. *)
#[warnings="-register-all"]
Inductive pyval : Type :=
  | PyNone
  | PyInt (n : Z)
  | PyStr (s : string)
  | PyFloat (x : float)
  | PyDatetime (t : datetime)
  | PyDict (items : list (string * pyval)).

(** Truth value of an optional string or integer used as a condition:
    [None], the empty string and [0] are false. *)
Definition truthy_str (s : option string) : bool :=
  match s with
  | None => false
  | Some s => negb (String.eqb s "")
  end.

Definition truthy_int (n : option Z) : bool :=
  match n with
  | None => false
  | Some n => negb (n =? 0)
  end.

(** [needle in hay] on strings: [needle] occurs in [hay] as a contiguous
    run of characters. *)
Fixpoint str_in (needle hay : string) : bool :=
  String.prefix needle hay ||
  match hay with
  | EmptyString => false
  | String _ hay' => str_in needle hay'
  end.

(** What the Python runtime supplies and the package's source does not
    show: [str.lower], and the attribute names that every object inherits
    from [object]. *)
Class Runtime : Type := {
  str_lower : string -> string;
  object_attr : string -> bool
}.

(** Outcome of a call that may raise. *)
Inductive exn : Type :=
  | ValueError (msg : string).

Inductive result (A : Type) : Type :=
  | Return (a : A)
  | Raise (e : exn).
Arguments Return {A} a.
Arguments Raise {A} e.

(** ** models/book.py *)

Module Book.

Record t : Type := mk {
  book_id : option Z;
  isbn : string;
  title : string;
  author : string;
  publisher : string;
  publish_date : datetime;
  category_id : Z;
  price : float;
  total_quantity : Z;
  available_quantity : Z;
  create_time : datetime;
  update_time : datetime
}.

(** Assignments [self.x = v], one per attribute. *)
Definition set_book_id (v : option Z) (b : t) : t :=
  mk v (isbn b) (title b) (author b) (publisher b) (publish_date b)
     (category_id b) (price b) (total_quantity b) (available_quantity b)
     (create_time b) (update_time b).
Definition set_isbn (v : string) (b : t) : t :=
  mk (book_id b) v (title b) (author b) (publisher b) (publish_date b)
     (category_id b) (price b) (total_quantity b) (available_quantity b)
     (create_time b) (update_time b).
Definition set_title (v : string) (b : t) : t :=
  mk (book_id b) (isbn b) v (author b) (publisher b) (publish_date b)
     (category_id b) (price b) (total_quantity b) (available_quantity b)
     (create_time b) (update_time b).
Definition set_author (v : string) (b : t) : t :=
  mk (book_id b) (isbn b) (title b) v (publisher b) (publish_date b)
     (category_id b) (price b) (total_quantity b) (available_quantity b)
     (create_time b) (update_time b).
Definition set_publisher (v : string) (b : t) : t :=
  mk (book_id b) (isbn b) (title b) (author b) v (publish_date b)
     (category_id b) (price b) (total_quantity b) (available_quantity b)
     (create_time b) (update_time b).
Definition set_publish_date (v : datetime) (b : t) : t :=
  mk (book_id b) (isbn b) (title b) (author b) (publisher b) v
     (category_id b) (price b) (total_quantity b) (available_quantity b)
     (create_time b) (update_time b).
Definition set_category_id (v : Z) (b : t) : t :=
  mk (book_id b) (isbn b) (title b) (author b) (publisher b)
     (publish_date b) v (price b) (total_quantity b)
     (available_quantity b) (create_time b) (update_time b).
Definition set_price (v : float) (b : t) : t :=
  mk (book_id b) (isbn b) (title b) (author b) (publisher b)
     (publish_date b) (category_id b) v (total_quantity b)
     (available_quantity b) (create_time b) (update_time b).
Definition set_total_quantity (v : Z) (b : t) : t :=
  mk (book_id b) (isbn b) (title b) (author b) (publisher b)
     (publish_date b) (category_id b) (price b) v (available_quantity b)
     (create_time b) (update_time b).
Definition set_available_quantity (v : Z) (b : t) : t :=
  mk (book_id b) (isbn b) (title b) (author b) (publisher b)
     (publish_date b) (category_id b) (price b) (total_quantity b) v
     (create_time b) (update_time b).
Definition set_create_time (v : datetime) (b : t) : t :=
  mk (book_id b) (isbn b) (title b) (author b) (publisher b)
     (publish_date b) (category_id b) (price b) (total_quantity b)
     (available_quantity b) v (update_time b).
Definition set_update_time (v : datetime) (b : t) : t :=
  mk (book_id b) (isbn b) (title b) (author b) (publisher b)
     (publish_date b) (category_id b) (price b) (total_quantity b)
     (available_quantity b) (create_time b) v.

(** [Book.__init__]: the two readings of [datetime.now()] are the
    arguments [now1] and [now2], in the order the body takes them. *)
Definition __init__ (now1 now2 : datetime)
    (book_id : option Z) (isbn title author publisher : string)
    (publish_date : datetime) (category_id : Z) (price : float)
    (total_quantity : Z) : t :=
  mk book_id isbn title author publisher publish_date category_id price
     total_quantity total_quantity now1 now2.

(** The two status strings of [get_status]: "can be borrowed" and
    "lent out". *)
Definition status_available : string := "可借".
Definition status_on_loan : string := "已借出".

Definition get_status (self : t) : string :=
  if available_quantity self >? 0 then status_available
  else status_on_loan.

(** [Book.update_quantity]: the result and the object after the call.
    [now] is what [datetime.now()] gives if the body reaches it. *)
Definition update_quantity (now : datetime) (self : t) (change : Z)
    : bool * t :=
  let new_quantity := available_quantity self + change in
  if (new_quantity >=? 0) && (new_quantity <=? total_quantity self) then
    (true, set_update_time now (set_available_quantity new_quantity self))
  else
    (false, self).

(** The book after a change of its quantity by [d] at time [now]: what
    the claims about borrowing and returning compare the result with. *)
Definition moved (now : datetime) (d : Z) (b : t) : t :=
  set_update_time now (set_available_quantity (available_quantity b + d) b).

End Book.

(** ** Attributes by name

    [update_book] reaches the attributes of a book through [hasattr] and
    [setattr].  The twelve data attributes are those [__init__] assigns. *)

Module Attr.

Inductive t : Type :=
  | book_id | isbn | title | author | publisher | publish_date
  | category_id | price | total_quantity | available_quantity
  | create_time | update_time.

Definition all : list t :=
  [book_id; isbn; title; author; publisher; publish_date; category_id;
   price; total_quantity; available_quantity; create_time; update_time].

Definition name (a : t) : string :=
  match a with
  | book_id => "book_id"
  | isbn => "isbn"
  | title => "title"
  | author => "author"
  | publisher => "publisher"
  | publish_date => "publish_date"
  | category_id => "category_id"
  | price => "price"
  | total_quantity => "total_quantity"
  | available_quantity => "available_quantity"
  | create_time => "create_time"
  | update_time => "update_time"
  end.

Definition of_name (s : string) : option t :=
  List.find (fun a => String.eqb (name a) s) all.

(** [getattr(book, a)] for a data attribute. *)
Definition get (a : t) (b : Book.t) : pyval :=
  match a with
  | book_id =>
      match Book.book_id b with Some n => PyInt n | None => PyNone end
  | isbn => PyStr (Book.isbn b)
  | title => PyStr (Book.title b)
  | author => PyStr (Book.author b)
  | publisher => PyStr (Book.publisher b)
  | publish_date => PyDatetime (Book.publish_date b)
  | category_id => PyInt (Book.category_id b)
  | price => PyFloat (Book.price b)
  | total_quantity => PyInt (Book.total_quantity b)
  | available_quantity => PyInt (Book.available_quantity b)
  | create_time => PyDatetime (Book.create_time b)
  | update_time => PyDatetime (Book.update_time b)
  end.

(** [setattr(book, a, v)] for a data attribute.  Python stores any value;
    the record [Book.t] holds each attribute at its annotated type, so
    the result is [None] for a value of another type: such a book is
    outside this embedding. *)
Definition set (a : t) (v : pyval) (b : Book.t) : option Book.t :=
  match a, v with
  | book_id, PyInt n => Some (Book.set_book_id (Some n) b)
  | book_id, PyNone => Some (Book.set_book_id None b)
  | isbn, PyStr s => Some (Book.set_isbn s b)
  | title, PyStr s => Some (Book.set_title s b)
  | author, PyStr s => Some (Book.set_author s b)
  | publisher, PyStr s => Some (Book.set_publisher s b)
  | publish_date, PyDatetime d => Some (Book.set_publish_date d b)
  | category_id, PyInt n => Some (Book.set_category_id n b)
  | price, PyFloat x => Some (Book.set_price x b)
  | total_quantity, PyInt n => Some (Book.set_total_quantity n b)
  | available_quantity, PyInt n => Some (Book.set_available_quantity n b)
  | create_time, PyDatetime d => Some (Book.set_create_time d b)
  | update_time, PyDatetime d => Some (Book.set_update_time d b)
  | _, _ => None
  end.

(** Whether [v] is of the type [a] is annotated with ([book_id] may
    also be [None]): the values [set] accepts. *)
Definition typed (a : t) (v : pyval) : bool :=
  match a, v with
  | book_id, (PyInt _ | PyNone) => true
  | (isbn | title | author | publisher), PyStr _ => true
  | (publish_date | create_time | update_time), PyDatetime _ => true
  | (category_id | total_quantity | available_quantity), PyInt _ => true
  | price, PyFloat _ => true
  | _, _ => false
  end.

(** The names defined in the body of [class Book]. *)
Definition methods : list string :=
  ["__init__"; "get_status"; "update_quantity"; "to_dict"; "__str__"].

Definition is_method (s : string) : bool :=
  List.existsb (String.eqb s) methods.

(** The names the statement [class Book:] itself puts in the class: those
    of the instance dictionary and weak-reference slots (the class has no
    [__slots__]), of the module and of the docstring. *)
Definition class_names : list string :=
  ["__dict__"; "__weakref__"; "__module__"; "__doc__"].

Definition is_class_name (s : string) : bool :=
  List.existsb (String.eqb s) class_names.

(** The value [items] gives for [key], if any. *)
Fixpoint item (key : string) (items : list (string * pyval))
    : option pyval :=
  match items with
  | [] => None
  | (k, v) :: items' => if String.eqb k key then Some v else item key items'
  end.

(** [book.a = items[a]] for each [a] of [attrs], in order. *)
Fixpoint set_all (attrs : list t) (items : list (string * pyval))
    (b : Book.t) : option Book.t :=
  match attrs with
  | [] => Some b
  | a :: attrs' =>
      match item (name a) items with
      | Some v =>
          match set a v b with
          | Some b' => set_all attrs' items b'
          | None => None
          end
      | None => None
      end
  end.

(** The book whose instance dictionary is [items]: the dictionary must
    give the twelve data attributes, each a value of its type, and nothing
    else; an object with another dictionary is not a [Book.t]. *)
Definition of_dict (items : list (string * pyval)) (b : Book.t)
    : option Book.t :=
  if bool_decide (NoDup (fst <$> items))
     && (List.length items =? List.length all)%nat
  then set_all all items b
  else None.

End Attr.

(** [hasattr(book, key)]: a data attribute, a method or another name of
    the class, or a name inherited from [object]. *)
Definition hasattr `{Runtime} (book : Book.t) (key : string) : bool :=
  match Attr.of_name key with
  | Some _ => true
  | None => Attr.is_method key || Attr.is_class_name key || object_attr key
  end.

(** [setattr(book, key, value)].  A data attribute takes the value.
    [__dict__] takes a dictionary, which becomes the instance dictionary
    and so replaces every data attribute at once.  The result is [None]
    where the outcome is not a [Book.t] or not a return: a value of
    another type than the attribute's, a dictionary of another shape, a
    [__dict__] that is no dictionary or an assignment to [__weakref__] or
    [__class__] (Python raises), and a name of a method or an inherited
    name (the assignment shadows it on the instance). *)
Definition setattr (book : Book.t) (key : string) (value : pyval)
    : option Book.t :=
  match Attr.of_name key with
  | Some a => Attr.set a value book
  | None =>
      if String.eqb key "__dict__" then
        match value with
        | PyDict items => Attr.of_dict items book
        | _ => None
        end
      else None
  end.

(** ** The heap of book objects

    A reference is the index of a cell; [Book(...)] allocates the next
    one, and nothing is ever freed. *)
Abbreviation ref := nat (only parsing).
Abbreviation Heap := (list Book.t) (only parsing).

Definition alloc (h : Heap) (b : Book.t) : ref * Heap :=
  (List.length h, h ++ [b]).

(** Whether the object behind [r] satisfies [p].  The references held by
    the store are always allocated (see [listed_run]); for a
    reference that is not, the answer is [false]. *)
Definition holds (h : Heap) (p : Book.t -> bool) (r : ref) : bool :=
  match h !! r with
  | Some b => p b
  | None => false
  end.

(** ** repositories/book_repository.py *)

Module BookRepository.

Record t : Type := mk {
  _books : list ref;
  _next_id : Z
}.

Definition __init__ : t := mk [] 1.

(** [for i, existing in enumerate(books): if p(existing): return i] *)
Fixpoint index_where (h : Heap) (p : Book.t -> bool) (books : list ref)
    : option nat :=
  match books with
  | [] => None
  | r :: books' =>
      if holds h p r then Some 0%nat
      else S <$> index_where h p books'
  end.

(** [for book in books: if p(book): return book]; the result is the
    reference together with the object it denotes. *)
Fixpoint first_where (h : Heap) (p : Book.t -> bool) (books : list ref)
    : option (ref * Book.t) :=
  match books with
  | [] => None
  | r :: books' =>
      match h !! r with
      | Some b => if p b then Some (r, b) else first_where h p books'
      | None => first_where h p books'
      end
  end.

Definition has_id (book_id : option Z) (b : Book.t) : bool :=
  bool_decide (Book.book_id b = book_id).

Definition save (h : Heap) (self : t) (book : ref) : Heap * t :=
  match h !! book with
  | None => (h, self)
  | Some b =>
      if bool_decide (Book.book_id b = None)
         || bool_decide (Book.book_id b = Some 0) then
        (<[book := Book.set_book_id (Some (_next_id self)) b]> h,
         mk (_books self ++ [book]) (_next_id self + 1))
      else
        match index_where h (has_id (Book.book_id b)) (_books self) with
        | Some i => (h, mk (<[i := book]> (_books self)) (_next_id self))
        | None => (h, self)
        end
  end.

Definition find_by_id (h : Heap) (self : t) (book_id : Z)
    : option (ref * Book.t) :=
  first_where h (has_id (Some book_id)) (_books self).

Definition find_by_isbn (h : Heap) (self : t) (isbn : string)
    : option (ref * Book.t) :=
  first_where h (fun book => String.eqb (Book.isbn book) isbn)
    (_books self).

(** The body of the loop of [find_by_params]: the value of [match] for
    one book. *)
Definition params_match `{Runtime} (title author : option string)
    (category_id : option Z) (book : Book.t) : bool :=
  let match_ := true in
  let match_ :=
    match title with
    | Some s =>
        if truthy_str title
           && negb (str_in (str_lower s) (str_lower (Book.title book)))
        then false else match_
    | None => match_
    end in
  let match_ :=
    match author with
    | Some s =>
        if truthy_str author
           && negb (str_in (str_lower s) (str_lower (Book.author book)))
        then false else match_
    | None => match_
    end in
  let match_ :=
    match category_id with
    | Some c =>
        if truthy_int category_id
           && negb (Book.category_id book =? c)
        then false else match_
    | None => match_
    end in
  match_.

Definition find_by_params `{Runtime} (h : Heap) (self : t)
    (title author : option string) (category_id : option Z) : list ref :=
  fold_left
    (fun result book =>
       if holds h (params_match title author category_id) book
       then result ++ [book] else result)
    (_books self) [].

(** The filters in the words of the description of [find_by_params]: a
    title or author filter that is given and not empty asks for a
    substring match that ignores case, a category filter that is given
    and not 0 asks for equality. *)
Definition contains_ignoring_case `{Runtime} (needle hay : string)
    : Prop :=
  exists pre post, str_lower hay = pre +:+ str_lower needle +:+ post.

Definition satisfies_filters `{Runtime} (title author : option string)
    (category_id : option Z) (book : Book.t) : Prop :=
  (forall s, title = Some s -> s <> "" ->
     contains_ignoring_case s (Book.title book)) /\
  (forall s, author = Some s -> s <> "" ->
     contains_ignoring_case s (Book.author book)) /\
  (forall c, category_id = Some c -> c <> 0 ->
     Book.category_id book = c).

Definition update (h : Heap) (self : t) (book : ref) : bool * t :=
  match h !! book with
  | None => (false, self)
  | Some b =>
      match index_where h (has_id (Book.book_id b)) (_books self) with
      | Some i => (true, mk (<[i := book]> (_books self)) (_next_id self))
      | None => (false, self)
      end
  end.

Definition delete (h : Heap) (self : t) (book_id : Z) : bool * t :=
  match index_where h (has_id (Some book_id)) (_books self) with
  | Some i => (true, mk (base.delete i (_books self)) (_next_id self))
  | None => (false, self)
  end.

Definition find_all (self : t) : list ref := _books self.

End BookRepository.

(** ** services/book_service.py *)

Module BookService.

Record t : Type := mk {
  _book_repo : BookRepository.t
}.

Definition __init__ : t := mk BookRepository.__init__.

(** What a call of the service reads and writes: the heap of book
    objects and the service object itself. *)
Record state : Type := State {
  heap : Heap;
  service : t
}.

Definition repo (w : state) : BookRepository.t := _book_repo (service w).

(** The state right after [BookService()]. *)
Definition init : state := State [] __init__.

Definition duplicate_isbn (isbn : string) : exn :=
  ValueError ("ISBN " +:+ isbn +:+ " 已存在").

Definition add_book (now1 now2 : datetime) (w : state)
    (isbn title author publisher : string) (publish_date : datetime)
    (category_id : Z) (price : float) (total_quantity : Z)
    : result ref * state :=
  let existing_book := BookRepository.find_by_isbn (heap w) (repo w) isbn in
  match existing_book with
  | Some _ => (Raise (duplicate_isbn isbn), w)
  | None =>
      let '(book, h) :=
        alloc (heap w)
          (Book.__init__ now1 now2 (Some 0) isbn title author publisher
             publish_date category_id price total_quantity) in
      let '(h, r) := BookRepository.save h (repo w) book in
      (Return book, State h (mk r))
  end.

Definition get_book_by_id (w : state) (book_id : Z)
    : option (ref * Book.t) :=
  BookRepository.find_by_id (heap w) (repo w) book_id.

Definition get_book_by_isbn (w : state) (isbn : string)
    : option (ref * Book.t) :=
  BookRepository.find_by_isbn (heap w) (repo w) isbn.

Definition search_books `{Runtime} (w : state)
    (title author : option string) (category_id : option Z) : list ref :=
  BookRepository.find_by_params (heap w) (repo w) title author category_id.

Definition get_all_books (w : state) : list ref :=
  BookRepository.find_all (repo w).

Definition keys (kwargs : list (string * pyval)) : list string :=
  fst <$> kwargs.

(** The loop of [update_book] over [kwargs.items()], on the object. *)
Fixpoint apply_kwargs `{Runtime} (book : Book.t)
    (kwargs : list (string * pyval)) : option Book.t :=
  match kwargs with
  | [] => Some book
  | (key, value) :: kwargs' =>
      if hasattr book key then
        match setattr book key value with
        | Some book' => apply_kwargs book' kwargs'
        | None => None
        end
      else apply_kwargs book kwargs'
  end.

(** Keyword arguments that name fields only: a key that names a data
    attribute comes with a value of that attribute's type, and every other
    key is no attribute of a book at all. *)
Definition representable `{Runtime} (kwargs : list (string * pyval))
    : bool :=
  forallb
    (fun item : string * pyval =>
       match Attr.of_name item.1 with
       | Some a => Attr.typed a item.2
       | None =>
           negb (Attr.is_method item.1 || Attr.is_class_name item.1
                 || object_attr item.1)
       end)
    kwargs.

(** [update_book(book_id, **kwargs)]: [kwargs] lists the items of the
    dictionary in order.  The outer [None] is the case where [setattr]
    gives [None]. *)
Definition update_book `{Runtime} (w : state) (book_id : Z)
    (kwargs : list (string * pyval)) : option (option ref * state) :=
  match BookRepository.find_by_id (heap w) (repo w) book_id with
  | None => Some (None, w)
  | Some (book, b) =>
      b' ← apply_kwargs b kwargs;
      Some (Some book, State (<[book := b']> (heap w)) (service w))
  end.

Definition delete_book (w : state) (book_id : Z) : bool * state :=
  let '(ok, r) := BookRepository.delete (heap w) (repo w) book_id in
  (ok, State (heap w) (mk r)).

Definition borrow_book (now : datetime) (w : state) (book_id : Z)
    : bool * state :=
  match BookRepository.find_by_id (heap w) (repo w) book_id with
  | None => (false, w)
  | Some (book, b) =>
      if Book.available_quantity b <=? 0 then (false, w)
      else
        let '(ok, b') := Book.update_quantity now b (-1) in
        (ok, State (<[book := b']> (heap w)) (service w))
  end.

Definition return_book (now : datetime) (w : state) (book_id : Z)
    : bool * state :=
  match BookRepository.find_by_id (heap w) (repo w) book_id with
  | None => (false, w)
  | Some (book, b) =>
      if Book.available_quantity b >=? Book.total_quantity b
      then (false, w)
      else
        let '(ok, b') := Book.update_quantity now b 1 in
        (ok, State (<[book := b']> (heap w)) (service w))
  end.

(** [stored w r b]: the store of [w] holds the reference [r], and [b] is
    the book behind it. *)
Definition stored (w : state) (r : ref) (b : Book.t) : Prop :=
  r ∈ BookRepository._books (repo w) ∧ heap w !! r = Some b.

(** The shape of the states reached by calls that leave the identifiers
    to [save] (see [wf_run]): the store holds no reference twice, every
    reference it holds is allocated, every stored book has an identifier
    that [save] has assigned, below the counter, and no two stored books
    share one. *)
Definition wf (w : state) : Prop :=
  1 <= BookRepository._next_id (repo w) /\
  NoDup (BookRepository._books (repo w)) /\
  (forall r, r ∈ BookRepository._books (repo w) ->
     exists b n, heap w !! r = Some b /\ Book.book_id b = Some n
                 /\ 1 <= n < BookRepository._next_id (repo w)) /\
  (forall r1 r2 b1 b2, stored w r1 b1 -> stored w r2 b2 ->
     Book.book_id b1 = Book.book_id b2 -> r1 = r2).

(** *** Calls of the service, and sequences of them *)

Inductive call : Type :=
  | AddBook (now1 now2 : datetime)
      (isbn title author publisher : string) (publish_date : datetime)
      (category_id : Z) (price : float) (total_quantity : Z)
  | GetBookById (book_id : Z)
  | GetBookByIsbn (isbn : string)
  | SearchBooks (title author : option string) (category_id : option Z)
  | GetAllBooks
  | UpdateBook (book_id : Z) (kwargs : list (string * pyval))
  | DeleteBook (book_id : Z)
  | BorrowBook (now : datetime) (book_id : Z)
  | ReturnBook (now : datetime) (book_id : Z).

(** Python binds a keyword named like a parameter to that parameter, so
    the dictionary [kwargs] of [update_book] has distinct keys, none of
    them [self] or [book_id]. *)
Definition kwargs_bound (kwargs : list (string * pyval)) : Prop :=
  NoDup (keys kwargs) ∧ ("self" ∉ keys kwargs) ∧ ("book_id" ∉ keys kwargs).

(** One call: the state after it, and the identifier [save] assigned
    during it, if it assigned one (read off the book [add_book] returns).
    The result is [None] for an [update_book] whose keywords Python cannot
    bind or whose effect is outside the embedding. *)
Definition step `{Runtime} (w : state) (c : call)
    : option (state * option Z) :=
  match c with
  | AddBook now1 now2 isbn title author publisher publish_date
      category_id price total_quantity =>
      match add_book now1 now2 w isbn title author publisher
              publish_date category_id price total_quantity with
      | (Return book, w') =>
          Some (w', (heap w' !! book) ≫= Book.book_id)
      | (Raise _, w') => Some (w', None)
      end
  | GetBookById _ | GetBookByIsbn _ | SearchBooks _ _ _ | GetAllBooks =>
      Some (w, None)
  | UpdateBook book_id kwargs =>
      if decide (kwargs_bound kwargs) then
        r ← update_book w book_id kwargs; Some (r.2, None)
      else None
  | DeleteBook book_id => Some ((delete_book w book_id).2, None)
  | BorrowBook now book_id => Some ((borrow_book now w book_id).2, None)
  | ReturnBook now book_id => Some ((return_book now w book_id).2, None)
  end.

(** A sequence of calls: the final state and the identifiers assigned,
    in order. *)
Fixpoint run `{Runtime} (w : state) (calls : list call)
    : option (state * list Z) :=
  match calls with
  | [] => Some (w, [])
  | c :: calls' =>
      '(w', assigned) ← step w c;
      '(w'', ids) ← run w' calls';
      Some (w'', from_option (λ n, [n]) [] assigned ++ ids)
  end.

End BookService.

(** ** A concrete runtime and concrete catalogues

    Used to run the definitions: lower case on the letters A-Z only, and
    the attribute names of [object]. *)

Definition lower_ascii (c : Ascii.ascii) : Ascii.ascii :=
  let n := Ascii.nat_of_ascii c in
  if ((65 <=? n) && (n <=? 90))%nat then Ascii.ascii_of_nat (n + 32) else c.

Fixpoint lower_string (s : string) : string :=
  match s with
  | EmptyString => EmptyString
  | String c s' => String (lower_ascii c) (lower_string s')
  end.

Definition object_attrs : list string :=
  ["__class__"; "__delattr__"; "__dict__"; "__dir__"; "__doc__"; "__eq__";
   "__format__"; "__ge__"; "__getattribute__"; "__getstate__"; "__gt__";
   "__hash__";
   "__init__"; "__init_subclass__"; "__le__"; "__lt__"; "__module__";
   "__ne__"; "__new__"; "__reduce__"; "__reduce_ex__"; "__repr__";
   "__setattr__"; "__sizeof__"; "__str__"; "__subclasshook__";
   "__weakref__"].

Definition ascii_runtime : Runtime := {|
  str_lower := lower_string;
  object_attr := fun s => List.existsb (String.eqb s) object_attrs
|}.

(** 99.0 and 89.0 as binary64 numbers. *)
Definition price_99 : float := S754_finite false (99 * 2 ^ 46) (-46).
Definition price_89 : float := S754_finite false (89 * 2 ^ 46) (-46).

Module Examples.
Import BookService.

Definition add_python (now : datetime) (total_quantity : Z) : call :=
  AddBook now now "9787115546081" "Python Guide" "Eric Matthes"
    "Posts and Telecom Press" 0 1 price_89 total_quantity.

Definition add_rust (now : datetime) (total_quantity : Z) : call :=
  AddBook now now "9787111647813" "Advanced Rust" "Luciano Ramalho"
    "Posts and Telecom Press" 0 2 price_89 total_quantity.

(** The state a sequence of calls leads to from a new service; a
    sequence that cannot be run leaves the new service. *)
Definition after (calls : list call) : state :=
  match run (H := ascii_runtime) init calls with
  | Some (w, _) => w
  | None => init
  end.

End Examples.

(** ** Notions the further properties are stated with *)

Module Notions.
Import BookService.

(** [borrow_book] called once per element of [nows] (the readings of the
    clock), in order: the results and the state at the end. *)
Fixpoint borrow_times (nows : list datetime) (w : state) (book_id : Z)
    : list bool * state :=
  match nows with
  | [] => ([], w)
  | now :: nows' =>
      let '(ok, w1) := borrow_book now w book_id in
      let '(oks, w2) := borrow_times nows' w1 book_id in
      (ok :: oks, w2)
  end.

(** No two stored books share an ISBN. *)
Definition isbn_unique (w : state) : Prop :=
  forall r1 r2 b1 b2, stored w r1 b1 -> stored w r2 b2 ->
    Book.isbn b1 = Book.isbn b2 -> r1 = r2.

(** Every stored book has its quantity within bounds. *)
Definition in_stock (w : state) : Prop :=
  forall r b, stored w r b ->
    0 <= Book.available_quantity b <= Book.total_quantity b.

(** Calls that do not write a quantity from outside: an [add_book] with a
    total that is not negative, an [update_book] that names neither
    quantity, and every other call. *)
Definition keeps_quantities (c : call) : bool :=
  match c with
  | AddBook _ _ _ _ _ _ _ _ _ total_quantity => 0 <=? total_quantity
  | UpdateBook _ kwargs =>
      negb (bool_decide ("total_quantity" ∈ keys kwargs))
      && negb (bool_decide ("available_quantity" ∈ keys kwargs))
  | _ => true
  end.

(** Calls whose keyword arguments, if any, Python can bind and name
    fields only: every call but an [update_book] with other keywords. *)
Definition plain `{Runtime} (c : call) : bool :=
  match c with
  | UpdateBook _ kwargs =>
      bool_decide (kwargs_bound kwargs) && representable kwargs
  | _ => true
  end.

(** The store lists no book twice and no two stored books share an
    identifier. *)
Definition ids_distinct (w : state) : Prop :=
  NoDup (BookRepository._books (repo w)) /\
  forall r1 r2 b1 b2, stored w r1 b1 -> stored w r2 b2 ->
    Book.book_id b1 = Book.book_id b2 -> r1 = r2.

(** The store lists no reference twice and only allocated ones. *)
Definition listed (w : state) : Prop :=
  NoDup (BookRepository._books (repo w)) /\
  forall r, r ∈ BookRepository._books (repo w) ->
    (r < List.length (heap w))%nat.

(** Calls that do not write an ISBN by [update_book]. *)
Definition keeps_isbn (c : call) : bool :=
  match c with
  | UpdateBook _ kwargs => negb (bool_decide ("isbn" ∈ keys kwargs))
  | _ => true
  end.

End Notions.

(** * Properties *)

(** ** Strings *)

Lemma prefix_app (p s : string) :
  String.prefix p s = true <-> exists post, s = p +:+ post.
Proof.
  revert s. induction p as [|c p IH]; intros s.
  - split; [intros _; exists s; reflexivity | intros _; by destruct s].
  - destruct s as [|d s]; simpl.
    + split; [discriminate | intros [post Hpost]; discriminate].
    + destruct (Ascii.ascii_dec c d) as [->|Hne].
      * rewrite IH. split; intros [post Hpost]; exists post.
        -- by rewrite Hpost.
        -- by injection Hpost.
      * split; [discriminate | intros [post Hpost]].
        simpl in Hpost. injection Hpost as Hd _. congruence.
Qed.

Lemma str_in_app (needle hay : string) :
  str_in needle hay = true <->
  exists pre post, hay = pre +:+ needle +:+ post.
Proof.
  induction hay as [|c hay IH]; cbn [str_in].
  - rewrite orb_false_r, prefix_app. split.
    + intros [post Hpost]. exists "", post. exact Hpost.
    + intros ([|d pre] & post & Hpost); [by exists post | discriminate].
  - rewrite orb_true_iff, prefix_app, IH. split.
    + intros [[post Hpost] | (pre & post & Hpost)].
      * exists "", post. exact Hpost.
      * exists (String c pre), post. simpl. by rewrite Hpost.
    + intros ([|d pre] & post & Hpost).
      * left. by exists post.
      * right. exists pre, post. simpl in Hpost. by injection Hpost.
Qed.

Lemma status_strings_differ : Book.status_available <> Book.status_on_loan.
Proof. discriminate. Qed.

(** ** The book entity *)

Section book_properties.
Import Book.

Lemma update_quantity_true (now : datetime) (b : t) (change : Z) :
  0 <= available_quantity b + change <= total_quantity b ->
  update_quantity now b change =
    (true, set_update_time now
             (set_available_quantity (available_quantity b + change) b)).
Proof.
  intros [Hlo Hhi]. unfold update_quantity.
  destruct (Z.geb_spec (available_quantity b + change) 0); [|lia].
  destruct (Z.leb_spec (available_quantity b + change) (total_quantity b));
    [reflexivity | lia].
Qed.

Lemma update_quantity_false (now : datetime) (b : t) (change : Z) :
  ~ 0 <= available_quantity b + change <= total_quantity b ->
  update_quantity now b change = (false, b).
Proof.
  intros Hout. unfold update_quantity.
  destruct (Z.geb_spec (available_quantity b + change) 0);
    destruct (Z.leb_spec (available_quantity b + change) (total_quantity b));
    simpl; try reflexivity; lia.
Qed.

(** C1.  On a book with [0 <= available_quantity <= total_quantity],
    [update_quantity delta] returns true exactly when
    [0 <= available_quantity + delta <= total_quantity]; it then stores
    that sum (and the current time in [update_time]) and nothing else;
    otherwise it returns false and leaves the book as it was.  In both
    cases the quantity stays within [0, total_quantity]. *)
Theorem update_quantity_in_bounds (now : datetime) (b : t) (delta : Z) :
  0 <= available_quantity b <= total_quantity b ->
  let ok := (update_quantity now b delta).1 in
  let b' := (update_quantity now b delta).2 in
  (ok = true <->
     0 <= available_quantity b + delta <= total_quantity b) /\
  (ok = true ->
     available_quantity b' = available_quantity b + delta /\
     update_time b' = now /\
     b' = set_update_time now
            (set_available_quantity (available_quantity b') b)) /\
  (ok = false ->
     b' = b /\
     available_quantity b' = available_quantity b /\
     update_time b' = update_time b) /\
  total_quantity b' = total_quantity b /\
  0 <= available_quantity b' <= total_quantity b'.
Proof.
  intros Hinv ok b'. subst ok b'.
  destruct (decide (0 <= available_quantity b + delta <= total_quantity b))
    as [Hin | Hout].
  - rewrite (update_quantity_true now b delta Hin). simpl.
    repeat split; auto; lia.
  - rewrite (update_quantity_false now b delta Hout). simpl.
    repeat split; auto; try discriminate; try lia.
Qed.

Lemma update_quantity_in_bounds_witness :
  let b := __init__ 10 11 (Some 1) "9787115546081" "Python Guide"
             "Eric Matthes" "Posts and Telecom Press" 0 1 price_89 5 in
  (update_quantity 20 b (-2)).1 = true /\
  available_quantity (update_quantity 20 b (-2)).2 = 3 /\
  (update_quantity 20 b 1).1 = false.
Proof.
  intros b.
  assert (Hb : 0 <= available_quantity b <= total_quantity b)
    by (simpl; lia).
  pose proof (update_quantity_in_bounds 20 b (-2) Hb) as (H1 & H2 & _).
  pose proof (update_quantity_in_bounds 20 b 1 Hb) as (H3 & _).
  split; [apply H1; simpl; lia|].
  split; [apply H2, H1; simpl; lia|].
  destruct ((update_quantity 20 b 1).1) eqn:E; [|reflexivity].
  exfalso. apply proj1 in H3. specialize (H3 eq_refl). simpl in H3. lia.
Defined.

(** C5 as stated fails: a book constructed with [total_quantity = 0] has
    [available_quantity = total_quantity] but its status is not the
    "available" string. *)
Lemma init_zero_quantity_not_available :
  let b := __init__ 10 11 (Some 0) "9787115546081" "Python Guide"
             "Eric Matthes" "Posts and Telecom Press" 0 1 price_89 0 in
  ~ (available_quantity b = total_quantity b /\
     get_status b = status_available).
Proof. intros b [_ Hstatus]. vm_compute in Hstatus. discriminate. Qed.

(** C5, amended.  Right after construction [available_quantity] equals
    [total_quantity], for every input; [get_status] is the "available"
    string exactly when [total_quantity > 0], and the "on loan" string
    otherwise. *)
Theorem init_available (now1 now2 : datetime) (book_id : option Z)
    (isbn title author publisher : string) (publish_date : datetime)
    (category_id : Z) (price : float) (total_quantity : Z) :
  let b := __init__ now1 now2 book_id isbn title author publisher
             publish_date category_id price total_quantity in
  available_quantity b = total_quantity /\
  Book.total_quantity b = total_quantity /\
  (get_status b = status_available <-> 0 < total_quantity) /\
  (get_status b = status_on_loan <-> total_quantity <= 0).
Proof.
  intros b. subst b. unfold get_status. simpl.
  pose proof status_strings_differ.
  destruct (Z.gtb_spec total_quantity 0); repeat split; intros;
    try lia; try reflexivity; congruence.
Qed.

End book_properties.

(** ** Lookup in the store *)

Section lookup.
Import BookRepository.

Lemma first_where_Some (h : Heap) (p : Book.t -> bool) (books : list ref)
    (r : ref) (b : Book.t) :
  first_where h p books = Some (r, b) ->
  r ∈ books /\ h !! r = Some b /\ p b = true.
Proof.
  induction books as [|r0 books IH]; simpl; [discriminate|].
  destruct (h !! r0) as [b0|] eqn:Hr0.
  - destruct (p b0) eqn:Hp.
    + intros [= <- <-]. split; [left | done].
    + intros H. destruct (IH H) as (? & ? & ?). split; [by right | done].
  - intros H. destruct (IH H) as (? & ? & ?). split; [by right | done].
Qed.

Lemma first_where_None (h : Heap) (p : Book.t -> bool) (books : list ref) :
  first_where h p books = None <->
  forall r b, r ∈ books -> h !! r = Some b -> p b = false.
Proof.
  induction books as [|r0 books IH]; simpl.
  - split; [intros _ r b Hin; inversion Hin | done].
  - destruct (h !! r0) as [b0|] eqn:Hr0.
    + destruct (p b0) eqn:Hp.
      * split; [discriminate|]. intros Hall.
        specialize (Hall r0 b0 ltac:(left) Hr0). congruence.
      * rewrite IH. split.
        -- intros Hall r b Hin Hr. inversion Hin; subst; [congruence | eauto].
        -- intros Hall r b Hin Hr. apply (Hall r b); [by right | done].
    + rewrite IH. split.
      * intros Hall r b Hin Hr. inversion Hin; subst; [congruence | eauto].
      * intros Hall r b Hin Hr. apply (Hall r b); [by right | done].
Qed.

Lemma has_id_true (n : option Z) (b : Book.t) :
  has_id n b = true <-> Book.book_id b = n.
Proof. unfold has_id. by rewrite bool_decide_eq_true. Qed.

Lemma has_id_false (n : option Z) (b : Book.t) :
  has_id n b = false <-> Book.book_id b <> n.
Proof. unfold has_id. by rewrite bool_decide_eq_false. Qed.

(** Writing a cell with a book that [p] judges like the old one does not
    change which reference a scan finds; the book found is the new one
    when that cell is the one found. *)
Lemma first_where_insert (h : Heap) (p : Book.t -> bool)
    (books : list ref) (r : ref) (b b' : Book.t) :
  h !! r = Some b -> p b' = p b ->
  first_where (<[r := b']> h) p books =
    (fun found : ref * Book.t =>
       (found.1, if decide (found.1 = r) then b' else found.2))
    <$> first_where h p books.
Proof.
  intros Hr Hp. induction books as [|r0 books IH]; simpl; [done|].
  destruct (decide (r0 = r)) as [->|Hne].
  - rewrite list_lookup_insert_eq by (by eapply lookup_lt_Some).
    rewrite Hr, Hp. destruct (p b); [|done].
    simpl. by rewrite decide_True.
  - rewrite list_lookup_insert_ne by done.
    destruct (h !! r0) as [b0|]; [|done].
    destruct (p b0); [|done]. simpl. by rewrite decide_False.
Qed.

End lookup.

(** ** Borrowing and returning *)

Section borrow_return.
Import BookRepository BookService.

Lemma find_by_id_stored (w : state) (id : Z) (r : ref) (b : Book.t) :
  find_by_id (heap w) (repo w) id = Some (r, b) ->
  stored w r b /\ Book.book_id b = Some id.
Proof.
  intros H. apply first_where_Some in H as (Hin & Hr & Hid).
  by apply has_id_true in Hid.
Qed.

Lemma find_by_id_None (w : state) (id : Z) :
  find_by_id (heap w) (repo w) id = None <->
  forall r b, stored w r b -> Book.book_id b <> Some id.
Proof.
  unfold find_by_id. rewrite first_where_None. unfold stored.
  split; intros Hall r b.
  - intros [Hin Hr]. apply has_id_false. eauto.
  - intros Hin Hr. apply has_id_false. eauto.
Qed.

(** Writing back the book that is already in the cell changes nothing. *)
Lemma write_same (w : state) (r : ref) (b : Book.t) :
  heap w !! r = Some b -> State (<[r := b]> (heap w)) (service w) = w.
Proof. intros Hr. destruct w as [h s]. simpl in *. by rewrite list_insert_id. Qed.

Lemma borrow_book_succeeds (now : datetime) (w : state) (id : Z)
    (r : ref) (b : Book.t) :
  find_by_id (heap w) (repo w) id = Some (r, b) ->
  0 < Book.available_quantity b ->
  Book.available_quantity b - 1 <= Book.total_quantity b ->
  borrow_book now w id =
    (true, State (<[r := Book.moved now (-1) b]> (heap w)) (service w)).
Proof.
  intros Hfind Hpos Hhi. unfold borrow_book. rewrite Hfind.
  destruct (Z.leb_spec (Book.available_quantity b) 0); [lia|].
  rewrite update_quantity_true by lia. done.
Qed.

Lemma return_book_succeeds (now : datetime) (w : state) (id : Z)
    (r : ref) (b : Book.t) :
  find_by_id (heap w) (repo w) id = Some (r, b) ->
  Book.available_quantity b < Book.total_quantity b ->
  0 <= Book.available_quantity b + 1 ->
  return_book now w id =
    (true, State (<[r := Book.moved now 1 b]> (heap w)) (service w)).
Proof.
  intros Hfind Hroom Hlo. unfold return_book. rewrite Hfind.
  destruct (Z.geb_spec (Book.available_quantity b) (Book.total_quantity b));
    [lia|].
  rewrite update_quantity_true by lia. done.
Qed.

(** C2 as stated fails.  After [add_book] with five copies and
    [update_book(1, total_quantity=2)] the book found for identifier 1 has
    [available_quantity = 5 > 0], and [borrow_book(1)] returns false and
    changes nothing. *)
Lemma borrow_book_refused_above_total :
  let w := Examples.after
             [Examples.add_python 10 5;
              UpdateBook 1 [("total_quantity", PyInt 2)]] in
  exists r b,
    get_book_by_id w 1 = Some (r, b) /\
    0 < Book.available_quantity b /\
    borrow_book 20 w 1 = (false, w).
Proof. vm_compute. eexists _, _. repeat split. Qed.

(** C2, amended.  [borrow_book(id)] returns false and changes nothing
    when no stored book has the identifier, and when the book found has
    [available_quantity <= 0].  Otherwise it returns what
    [update_quantity(-1)] returns: when
    [available_quantity - 1 <= total_quantity] (so whenever
    [available_quantity <= total_quantity]) it returns true, that book's
    [available_quantity] is one less, its [update_time] is the current
    time, and nothing else changes; when
    [available_quantity - 1 > total_quantity] it returns false and
    changes nothing. *)
Theorem borrow_book_cases (now : datetime) (w : state) (id : Z) :
  ((forall r b, stored w r b -> Book.book_id b <> Some id) ->
     borrow_book now w id = (false, w)) /\
  (forall r b,
     find_by_id (heap w) (repo w) id = Some (r, b) ->
     (stored w r b /\ Book.book_id b = Some id) /\
     (Book.available_quantity b <= 0 ->
        borrow_book now w id = (false, w)) /\
     (0 < Book.available_quantity b ->
      Book.available_quantity b - 1 <= Book.total_quantity b ->
        borrow_book now w id =
          (true, State (<[r := Book.moved now (-1) b]> (heap w)) (service w)) /\
        Book.available_quantity (Book.moved now (-1) b)
          = Book.available_quantity b - 1) /\
     (0 < Book.available_quantity b ->
      Book.total_quantity b < Book.available_quantity b - 1 ->
        borrow_book now w id = (false, w))).
Proof.
  split.
  - intros Hnone. apply find_by_id_None in Hnone.
    unfold borrow_book. by rewrite Hnone.
  - intros r b Hfind.
    pose proof (find_by_id_stored w id r b Hfind) as [[Hin Hr] Hid].
    split; [done|]. split; [|split].
    + intros Hle. unfold borrow_book. rewrite Hfind.
      destruct (Z.leb_spec (Book.available_quantity b) 0); [done | lia].
    + intros Hpos Hhi. split; [|done]. by apply borrow_book_succeeds.
    + intros Hpos Hhi. unfold borrow_book. rewrite Hfind.
      destruct (Z.leb_spec (Book.available_quantity b) 0); [lia|].
      rewrite update_quantity_false by lia. by rewrite write_same.
Qed.

Lemma borrow_book_cases_witness :
  let w := Examples.after [Examples.add_python 10 1] in
  borrow_book 20 w 7 = (false, w) /\
  (borrow_book 20 w 1).1 = true /\
  borrow_book 30 (borrow_book 20 w 1).2 1
    = (false, (borrow_book 20 w 1).2).
Proof.
  intros w.
  destruct (borrow_book_cases 20 w 7) as [Habsent _].
  destruct (borrow_book_cases 20 w 1) as [_ Hfound].
  destruct (borrow_book_cases 30 (borrow_book 20 w 1).2 1) as [_ Hagain].
  split; [|split].
  - apply Habsent. intros r b [Hin Hr].
    vm_compute in Hin. apply list_elem_of_singleton in Hin. subst r.
    vm_compute in Hr. injection Hr as <-. discriminate.
  - specialize (Hfound 0%nat _ eq_refl) as (_ & _ & Hok & _).
    destruct Hok as [Heq _];
      [vm_compute; reflexivity | vm_compute; discriminate | by rewrite Heq].
  - specialize (Hagain 0%nat _ eq_refl) as (_ & Hzero & _).
    apply Hzero. vm_compute. discriminate.
Defined.

(** C3 as stated fails.  After [add_book] with five copies and
    [update_book(1, available_quantity=-5)] the book found for
    identifier 1 has [available_quantity < total_quantity], and
    [return_book(1)] returns false and changes nothing. *)
Lemma return_book_refused_below_zero :
  let w := Examples.after
             [Examples.add_python 10 5;
              UpdateBook 1 [("available_quantity", PyInt (-5))]] in
  exists r b,
    get_book_by_id w 1 = Some (r, b) /\
    Book.available_quantity b < Book.total_quantity b /\
    return_book 20 w 1 = (false, w).
Proof. vm_compute. eexists _, _. repeat split. Qed.

(** C3, amended.  [return_book(id)] returns false and changes nothing
    when no stored book has the identifier, and when the book found has
    [available_quantity >= total_quantity].  Otherwise it returns what
    [update_quantity(+1)] returns: when [available_quantity + 1 >= 0] (so
    whenever [available_quantity >= 0]) it returns true, that book's
    [available_quantity] is one more, its [update_time] is the current
    time, and nothing else changes; when [available_quantity + 1 < 0] it
    returns false and changes nothing. *)
Theorem return_book_cases (now : datetime) (w : state) (id : Z) :
  ((forall r b, stored w r b -> Book.book_id b <> Some id) ->
     return_book now w id = (false, w)) /\
  (forall r b,
     find_by_id (heap w) (repo w) id = Some (r, b) ->
     (stored w r b /\ Book.book_id b = Some id) /\
     (Book.total_quantity b <= Book.available_quantity b ->
        return_book now w id = (false, w)) /\
     (Book.available_quantity b < Book.total_quantity b ->
      0 <= Book.available_quantity b + 1 ->
        return_book now w id =
          (true, State (<[r := Book.moved now 1 b]> (heap w)) (service w)) /\
        Book.available_quantity (Book.moved now 1 b)
          = Book.available_quantity b + 1) /\
     (Book.available_quantity b < Book.total_quantity b ->
      Book.available_quantity b + 1 < 0 ->
        return_book now w id = (false, w))).
Proof.
  split.
  - intros Hnone. apply find_by_id_None in Hnone.
    unfold return_book. by rewrite Hnone.
  - intros r b Hfind.
    pose proof (find_by_id_stored w id r b Hfind) as [[Hin Hr] Hid].
    split; [done|]. split; [|split].
    + intros Hfull. unfold return_book. rewrite Hfind.
      destruct (Z.geb_spec (Book.available_quantity b) (Book.total_quantity b));
        [done | lia].
    + intros Hroom Hlo. split; [|done]. by apply return_book_succeeds.
    + intros Hroom Hlo. unfold return_book. rewrite Hfind.
      destruct (Z.geb_spec (Book.available_quantity b) (Book.total_quantity b));
        [lia|].
      rewrite update_quantity_false by lia. by rewrite write_same.
Qed.

Lemma return_book_cases_witness :
  let w := Examples.after [Examples.add_python 10 1; BorrowBook 20 1] in
  return_book 30 w 7 = (false, w) /\
  (return_book 30 w 1).1 = true /\
  return_book 40 (return_book 30 w 1).2 1
    = (false, (return_book 30 w 1).2).
Proof.
  intros w.
  destruct (return_book_cases 30 w 7) as [Habsent _].
  destruct (return_book_cases 30 w 1) as [_ Hfound].
  destruct (return_book_cases 40 (return_book 30 w 1).2 1) as [_ Hagain].
  split; [|split].
  - apply Habsent. intros r b [Hin Hr].
    vm_compute in Hin. apply list_elem_of_singleton in Hin. subst r.
    vm_compute in Hr. injection Hr as <-. discriminate.
  - specialize (Hfound 0%nat _ eq_refl) as (_ & _ & Hok & _).
    destruct Hok as [Heq _];
      [vm_compute; reflexivity | vm_compute; discriminate | by rewrite Heq].
  - specialize (Hagain 0%nat _ eq_refl) as (_ & Hfull & _).
    apply Hfull. vm_compute. discriminate.
Defined.

Lemma find_by_id_write (w : state) (id : Z) (r : ref) (b b' : Book.t) :
  find_by_id (heap w) (repo w) id = Some (r, b) ->
  Book.book_id b' = Book.book_id b ->
  let w' := State (<[r := b']> (heap w)) (service w) in
  find_by_id (heap w') (repo w') id = Some (r, b').
Proof.
  intros Hfind Hid w'. subst w'. unfold find_by_id, repo in *. simpl.
  pose proof (first_where_Some _ _ _ _ _ Hfind) as (_ & Hr & _).
  rewrite (first_where_insert _ _ _ r b b' Hr).
  - rewrite Hfind. simpl. by rewrite decide_True.
  - unfold has_id. by rewrite Hid.
Qed.

Lemma moved_back (now1 now2 : datetime) (b : Book.t) :
  Book.moved now2 1 (Book.moved now1 (-1) b) = Book.set_update_time now2 b.
Proof.
  destruct b. unfold Book.moved, Book.set_update_time,
    Book.set_available_quantity. simpl. f_equal. lia.
Qed.

(** C6 as stated fails.  With one copy, borrowed once, the book has
    [available_quantity = 0] and [total_quantity = 1]; [borrow_book] then
    fails, [return_book] succeeds, and [available_quantity] is 1. *)
Lemma borrow_return_on_exhausted_book :
  let w := Examples.after [Examples.add_python 10 1; BorrowBook 20 1] in
  let w' := (return_book 40 (borrow_book 30 w 1).2 1).2 in
  exists r b b',
    get_book_by_id w 1 = Some (r, b) /\
    0 <= Book.available_quantity b <= Book.total_quantity b /\
    get_book_by_id w' 1 = Some (r, b') /\
    Book.available_quantity b' <> Book.available_quantity b.
Proof.
  vm_compute. eexists _, _, _.
  split; [reflexivity|]. split; [split; discriminate|].
  split; [reflexivity|]. discriminate.
Qed.

(** C6, amended.  For a stored book with
    [0 < available_quantity <= total_quantity], [borrow_book(id)] and then
    [return_book(id)] both succeed and leave the book as it was, its
    [available_quantity] included, except for [update_time]. *)
Theorem borrow_then_return (now1 now2 : datetime) (w : state) (id : Z)
    (r : ref) (b : Book.t) :
  find_by_id (heap w) (repo w) id = Some (r, b) ->
  0 < Book.available_quantity b <= Book.total_quantity b ->
  let w1 := (borrow_book now1 w id).2 in
  let w2 := (return_book now2 w1 id).2 in
  (borrow_book now1 w id).1 = true /\
  (return_book now2 w1 id).1 = true /\
  w2 = State (<[r := Book.set_update_time now2 b]> (heap w)) (service w) /\
  find_by_id (heap w2) (repo w2) id
    = Some (r, Book.set_update_time now2 b) /\
  Book.available_quantity (Book.set_update_time now2 b)
    = Book.available_quantity b.
Proof.
  intros Hfind [Hpos Hhi] w1 w2.
  assert (Hborrow := borrow_book_succeeds now1 w id r b Hfind
                       ltac:(lia) ltac:(lia)).
  assert (Hfind1 : find_by_id (heap w1) (repo w1) id
                   = Some (r, Book.moved now1 (-1) b)).
  { subst w1. rewrite Hborrow. simpl.
    by apply (find_by_id_write w id r b). }
  assert (Hreturn := return_book_succeeds now2 w1 id r _ Hfind1
                       ltac:(simpl; lia) ltac:(simpl; lia)).
  assert (Hw2 : w2 = State (<[r := Book.set_update_time now2 b]> (heap w))
                       (service w)).
  { subst w2. rewrite Hreturn. simpl. subst w1. rewrite Hborrow. simpl.
    by rewrite list_insert_insert_eq, moved_back. }
  split; [by rewrite Hborrow|]. split; [by rewrite Hreturn|].
  split; [done|]. split; [|done].
  rewrite Hw2. by apply (find_by_id_write w id r b).
Qed.

Lemma borrow_then_return_witness :
  let w := Examples.after [Examples.add_python 10 5] in
  exists b,
    get_book_by_id w 1 = Some (0%nat, b) /\
    get_book_by_id (return_book 30 (borrow_book 20 w 1).2 1).2 1
      = Some (0%nat, Book.set_update_time 30 b).
Proof.
  intros w. eexists. split; [reflexivity|].
  eapply (borrow_then_return 20 30 w 1 0%nat).
  - reflexivity.
  - vm_compute. split; [reflexivity | discriminate].
Defined.

(** C10.  For a stored book with
    [0 <= available_quantity <= total_quantity]: once the guard of
    [borrow_book] ([available_quantity > 0]) or of [return_book]
    ([available_quantity < total_quantity]) has passed, the
    [update_quantity] call returns true; so [borrow_book] returns true
    exactly when the book is found with [available_quantity > 0], and
    [return_book] exactly when it is found with
    [available_quantity < total_quantity]. *)
Theorem guard_implies_update_succeeds (now : datetime) (w : state)
    (id : Z) :
  (forall r b, find_by_id (heap w) (repo w) id = Some (r, b) ->
     0 <= Book.available_quantity b <= Book.total_quantity b) ->
  (forall r b, find_by_id (heap w) (repo w) id = Some (r, b) ->
     (0 < Book.available_quantity b ->
        (Book.update_quantity now b (-1)).1 = true) /\
     (Book.available_quantity b < Book.total_quantity b ->
        (Book.update_quantity now b 1).1 = true)) /\
  ((borrow_book now w id).1 = true <->
     exists r b, find_by_id (heap w) (repo w) id = Some (r, b) /\
                 0 < Book.available_quantity b) /\
  ((return_book now w id).1 = true <->
     exists r b, find_by_id (heap w) (repo w) id = Some (r, b) /\
                 Book.available_quantity b < Book.total_quantity b).
Proof.
  intros Hinv. split; [|split].
  - intros r b Hfind. specialize (Hinv r b Hfind).
    split; intros; rewrite update_quantity_true by lia; done.
  - unfold borrow_book.
    destruct (find_by_id (heap w) (repo w) id) as [[r b]|] eqn:Hfind.
    + specialize (Hinv r b eq_refl).
      destruct (Z.leb_spec (Book.available_quantity b) 0).
      * split; [discriminate|]. intros (? & ? & [= <- <-] & ?). lia.
      * rewrite update_quantity_true by lia. simpl.
        split; [eauto | done].
    + split; [discriminate | intros (? & ? & ? & ?); discriminate].
  - unfold return_book.
    destruct (find_by_id (heap w) (repo w) id) as [[r b]|] eqn:Hfind.
    + specialize (Hinv r b eq_refl).
      destruct (Z.geb_spec (Book.available_quantity b)
                  (Book.total_quantity b)).
      * split; [discriminate|]. intros (? & ? & [= <- <-] & ?). lia.
      * rewrite update_quantity_true by lia. simpl.
        split; [eauto | done].
    + split; [discriminate | intros (? & ? & ? & ?); discriminate].
Qed.

Lemma guard_implies_update_succeeds_witness :
  let w := Examples.after [Examples.add_python 10 1] in
  (borrow_book 20 w 1).1 = true /\
  ~ (return_book 20 w 1).1 = true.
Proof.
  intros w.
  assert (Hinv : forall r b,
             find_by_id (heap w) (repo w) 1 = Some (r, b) ->
             0 <= Book.available_quantity b <= Book.total_quantity b).
  { intros r b [= <- <-]. vm_compute. split; discriminate. }
  destruct (guard_implies_update_succeeds 20 w 1 Hinv) as (_ & Hb & Hr).
  split.
  - apply Hb. eexists _, _. split; [reflexivity|]. vm_compute. reflexivity.
  - intros Htrue. apply Hr in Htrue as (r & b & [= <- <-] & Hlt).
    vm_compute in Hlt. discriminate.
Defined.

End borrow_return.

(** ** Adding a book *)

Section add_book.
Import BookRepository BookService.

Lemma find_by_isbn_None (w : state) (isbn : string) :
  find_by_isbn (heap w) (repo w) isbn = None <->
  forall r b, stored w r b -> Book.isbn b <> isbn.
Proof.
  unfold find_by_isbn. rewrite first_where_None. unfold stored.
  split; intros Hall r b.
  - intros [Hin Hr]. by apply String.eqb_neq, (Hall r).
  - intros Hin Hr. by apply String.eqb_neq, (Hall r).
Qed.

Lemma find_by_isbn_Some (w : state) (isbn : string) (r : ref) (b : Book.t) :
  find_by_isbn (heap w) (repo w) isbn = Some (r, b) ->
  stored w r b /\ Book.isbn b = isbn.
Proof.
  intros H. apply first_where_Some in H as (Hin & Hr & Heq).
  by apply String.eqb_eq in Heq.
Qed.

(** [save] of a freshly allocated book whose identifier is 0. *)
Lemma save_new (h : Heap) (self : BookRepository.t) (b : Book.t) :
  Book.book_id b = Some 0 ->
  save (h ++ [b]) self (List.length h) =
    (h ++ [Book.set_book_id (Some (_next_id self)) b],
     BookRepository.mk (_books self ++ [List.length h]) (_next_id self + 1)).
Proof.
  intros Hid. unfold save.
  rewrite (list_lookup_middle h [] b (List.length h) eq_refl).
  rewrite Hid. simpl. f_equal.
  rewrite <- (Nat.add_0_r (List.length h)) at 1.
  by rewrite insert_app_r.
Qed.

(** In a state of the shape [wf] the identifier that [save] is about to
    assign is held by no stored book. *)
Lemma next_id_unused (w : state) (r : ref) (b : Book.t) :
  wf w -> stored w r b -> Book.book_id b <> Some (_next_id (repo w)).
Proof.
  intros (_ & _ & Halloc & _) [Hin Hr] Heq.
  destruct (Halloc r Hin) as (c & n & Hc & Hn & Hrange).
  assert (c = b) as -> by congruence.
  assert (n = _next_id (repo w)) by congruence. lia.
Qed.

(** C4.  [add_book] raises the duplicate-ISBN error exactly when a
    stored book has the given ISBN, whatever the other arguments, and
    then changes nothing.  When no stored book has it, a new book object
    is built from the arguments with [available_quantity =
    total_quantity], [save] gives it the store's next identifier and
    appends it to the store, and that same object is returned; in a state
    of the shape [wf] no stored book has that identifier. *)
Theorem add_book_cases (now1 now2 : datetime) (w : state)
    (isbn title author publisher : string) (publish_date : datetime)
    (category_id : Z) (price : float) (total_quantity : Z) :
  let out := add_book now1 now2 w isbn title author publisher
               publish_date category_id price total_quantity in
  let taken := exists r b, stored w r b /\ Book.isbn b = isbn in
  ((exists e, out.1 = Raise e) <-> taken) /\
  (taken -> out = (Raise (duplicate_isbn isbn), w)) /\
  (~ taken ->
     let book := List.length (heap w) in
     let n := _next_id (repo w) in
     out =
       (Return book,
        State
          (heap w ++
             [Book.mk (Some n) isbn title author publisher publish_date
                category_id price total_quantity total_quantity
                now1 now2])
          (BookService.mk
             (BookRepository.mk (_books (repo w) ++ [book]) (n + 1)))) /\
     heap w !! book = None /\
     (wf w -> forall r b, stored w r b -> Book.book_id b <> Some n)).
Proof.
  intros out taken. subst out. unfold add_book.
  destruct (find_by_isbn (heap w) (repo w) isbn) as [[r b]|] eqn:Hfind.
  - apply find_by_isbn_Some in Hfind as [Hst Hisbn].
    assert taken by (exists r, b; done).
    simpl. split; [|split].
    + split; [done | eauto].
    + done.
    + intros Hnot. by destruct Hnot.
  - unfold alloc. rewrite save_new by done. simpl.
    pose proof (proj1 (find_by_isbn_None w isbn) Hfind) as Hnone.
    split; [|split].
    + split; [intros [e He]; discriminate|].
      intros (r & b & Hst & Hisbn). by destruct (Hnone r b Hst).
    + intros (r & b & Hst & Hisbn). by destruct (Hnone r b Hst).
    + intros _. split; [done|]. split; [by apply lookup_ge_None|].
      intros Hwf r b. by apply next_id_unused.
Qed.

End add_book.

(** ** Search *)

Section search.
Context `{Runtime}.
Import BookRepository BookService.

Lemma append_loop_filter {A : Type} (keep : A -> bool) (l acc : list A) :
  fold_left (fun result x => if keep x then result ++ [x] else result) l acc
  = acc ++ List.filter keep l.
Proof.
  revert acc. induction l as [|x l IH]; intros acc; simpl.
  - by rewrite app_nil_r.
  - rewrite IH. destruct (keep x); [|done].
    by rewrite <- app_assoc.
Qed.

Lemma str_filter_passes (s field : string) :
  truthy_str (Some s) && negb (str_in (str_lower s) (str_lower field))
    = false
  <-> (s <> "" -> contains_ignoring_case s field).
Proof.
  unfold truthy_str, contains_ignoring_case.
  rewrite <- str_in_app.
  destruct (String.eqb_spec s ""); simpl.
  - split; [intros _ Hne; by destruct Hne | done].
  - rewrite negb_false_iff. split; [auto | intros Hc; by apply Hc].
Qed.

Lemma int_filter_passes (c field : Z) :
  truthy_int (Some c) && negb (field =? c) = false
  <-> (c <> 0 -> field = c).
Proof.
  unfold truthy_int.
  destruct (Z.eqb_spec c 0); simpl.
  - split; [intros _ Hne; by destruct Hne | done].
  - rewrite negb_false_iff, Z.eqb_eq. split; [auto | intros Hc; by apply Hc].
Qed.

Lemma params_match_satisfies (title author : option string)
    (category_id : option Z) (book : Book.t) :
  params_match title author category_id book = true <->
  satisfies_filters title author category_id book.
Proof.
  unfold params_match, satisfies_filters.
  assert (Ht :
    match title with
    | Some s => truthy_str title
                && negb (str_in (str_lower s) (str_lower (Book.title book)))
    | None => false
    end = false <->
    forall s, title = Some s -> s <> "" ->
      contains_ignoring_case s (Book.title book)).
  { destruct title as [s|].
    - rewrite str_filter_passes. split.
      + intros Hc s' [= <-]. exact Hc.
      + intros Hc. by apply Hc.
    - split; [intros _ s' ? | done]. discriminate. }
  assert (Ha :
    match author with
    | Some s => truthy_str author
                && negb (str_in (str_lower s) (str_lower (Book.author book)))
    | None => false
    end = false <->
    forall s, author = Some s -> s <> "" ->
      contains_ignoring_case s (Book.author book)).
  { destruct author as [s|].
    - rewrite str_filter_passes. split.
      + intros Hc s' [= <-]. exact Hc.
      + intros Hc. by apply Hc.
    - split; [intros _ s' ? | done]. discriminate. }
  assert (Hc :
    match category_id with
    | Some c => truthy_int category_id
                && negb (Book.category_id book =? c)
    | None => false
    end = false <->
    forall c, category_id = Some c -> c <> 0 -> Book.category_id book = c).
  { destruct category_id as [c|].
    - rewrite int_filter_passes. split.
      + intros Hc c' [= <-]. exact Hc.
      + intros Hc. by apply Hc.
    - split; [intros _ c' ? | done]. discriminate. }
  rewrite <- Ht, <- Ha, <- Hc. clear Ht Ha Hc.
  destruct title as [t|], author as [a|], category_id as [c|];
    repeat match goal with
           | |- context [if ?x then _ else _] => destruct x
           end;
    intuition congruence.
Qed.

(** C7.  [find_by_params] (and [search_books], which passes its arguments
    on) returns the stored books that satisfy every given filter, each
    once per place in the store and in the store's order: title and
    author as substring matches that ignore case, the category by
    equality; a filter that is omitted, an empty title or author, and
    category 0 do not constrain. *)
Theorem find_by_params_filters (w : state) (title author : option string)
    (category_id : option Z) :
  let result :=
    find_by_params (heap w) (repo w) title author category_id in
  let keep := holds (heap w) (params_match title author category_id) in
  search_books w title author category_id = result /\
  result = List.filter keep (_books (repo w)) /\
  (forall r, keep r = true <->
     exists b, heap w !! r = Some b /\
               satisfies_filters title author category_id b) /\
  (forall r, r ∈ result <->
     r ∈ _books (repo w) /\
     exists b, heap w !! r = Some b /\
               satisfies_filters title author category_id b) /\
  (forall b, satisfies_filters None None None b) /\
  (forall b, satisfies_filters (Some "") (Some "") (Some 0) b).
Proof.
  intros result keep.
  assert (Hkeep : forall r, keep r = true <->
     exists b, heap w !! r = Some b /\
               satisfies_filters title author category_id b).
  { intros r. subst keep. unfold holds.
    destruct (heap w !! r) as [b|].
    - rewrite params_match_satisfies. split; [eauto|].
      by intros (b' & [= <-] & Hs).
    - split; [discriminate | by intros (b' & ? & _)]. }
  assert (Hres : result = List.filter keep (_books (repo w))).
  { subst result. unfold find_by_params. by rewrite append_loop_filter. }
  split; [done|]. split; [done|]. split; [done|]. split.
  - intros r. rewrite Hres, list_elem_of_In, List.filter_In,
      <- list_elem_of_In, Hkeep. done.
  - split; intros b; repeat split; intros ? [= <-] Hne; by destruct Hne.
Qed.

End search.

(** ** Identifier assignment *)

Section identifiers.
Context `{Runtime}.
Import BookRepository BookService.

Lemma update_book_service (w w' : state) (id : Z)
    (kwargs : list (string * pyval)) (r : option ref) :
  update_book w id kwargs = Some (r, w') -> service w' = service w.
Proof.
  unfold update_book.
  destruct (find_by_id (heap w) (repo w) id) as [[book b]|].
  - destruct (apply_kwargs b kwargs); simpl; [|discriminate].
    by intros [= _ <-].
  - by intros [= _ <-].
Qed.

Lemma delete_book_next_id (w : state) (id : Z) :
  _next_id (repo (delete_book w id).2) = _next_id (repo w).
Proof.
  unfold delete_book, delete.
  by destruct (index_where (heap w) (has_id (Some id)) (_books (repo w))).
Qed.

Lemma borrow_book_service (now : datetime) (w : state) (id : Z) :
  service (borrow_book now w id).2 = service w.
Proof.
  unfold borrow_book.
  destruct (find_by_id (heap w) (repo w) id) as [[book b]|]; [|done].
  destruct (Book.available_quantity b <=? 0); [done|].
  by destruct (Book.update_quantity now b (-1)).
Qed.

Lemma return_book_service (now : datetime) (w : state) (id : Z) :
  service (return_book now w id).2 = service w.
Proof.
  unfold return_book.
  destruct (find_by_id (heap w) (repo w) id) as [[book b]|]; [|done].
  destruct (Book.available_quantity b >=? Book.total_quantity b); [done|].
  by destruct (Book.update_quantity now b 1).
Qed.

(** What one call does to the counter: a call in which [save] assigns an
    identifier assigns the counter's value and advances it by one; every
    other call leaves the counter alone. *)
Lemma step_next_id (w w' : state) (c : call) (assigned : option Z) :
  step w c = Some (w', assigned) ->
  match assigned with
  | Some n => n = _next_id (repo w)
              /\ _next_id (repo w') = _next_id (repo w) + 1
  | None => _next_id (repo w') = _next_id (repo w)
  end.
Proof.
  destruct c; simpl.
  - unfold add_book.
    destruct (find_by_isbn (heap w) (repo w) isbn) as [[r b]|].
    + by intros [= <- <-].
    + unfold alloc. rewrite save_new by done. intros [= <- <-]. simpl.
      rewrite (list_lookup_middle (heap w) [] _ _ eq_refl). done.
  - by intros [= <- <-].
  - by intros [= <- <-].
  - by intros [= <- <-].
  - by intros [= <- <-].
  - destruct (decide (kwargs_bound kwargs)); [|discriminate].
    destruct (update_book w book_id kwargs) as [[r w1]|] eqn:Hu;
      simpl; [|discriminate].
    intros [= <- <-]. unfold repo.
    by rewrite (update_book_service _ _ _ _ _ Hu).
  - intros [= <- <-]. apply delete_book_next_id.
  - intros [= <- <-]. unfold repo. by rewrite borrow_book_service.
  - intros [= <- <-]. unfold repo. by rewrite return_book_service.
Qed.

Lemma run_next_id (calls : list call) (w w' : state) (ids : list Z) :
  run w calls = Some (w', ids) ->
  _next_id (repo w') = _next_id (repo w) + Z.of_nat (List.length ids) /\
  forall k n, ids !! k = Some n -> n = _next_id (repo w) + Z.of_nat k.
Proof.
  revert w w' ids. induction calls as [|c calls IH]; intros w w' ids; simpl.
  - intros [= <- <-]. simpl. split; [lia | intros k n Hk; destruct k; discriminate].
  - destruct (step w c) as [[w1 assigned]|] eqn:Hstep; simpl; [|discriminate].
    destruct (run w1 calls) as [[w2 ids']|] eqn:Hrun; simpl; [|discriminate].
    intros [= <- <-].
    apply step_next_id in Hstep. apply IH in Hrun as [Hnext Hids].
    destruct assigned as [n|]; simpl.
    + destruct Hstep as [-> Hstep]. split; [lia|].
      intros [|k] m Hk; simpl in Hk.
      * injection Hk as <-. lia.
      * apply Hids in Hk. lia.
    + rewrite Hstep in *. done.
Qed.

(** C8.  Along any sequence of calls of the service on a new service,
    the identifiers that [save] assigns are 1, 2, 3, ... in that order
    (deletions and every other call in between included): the first is
    1, each later one is strictly larger than all before it, none occurs
    twice, and the counter always stands one past the last one
    assigned. *)
Theorem assigned_ids_sequential (calls : list call) (w : state)
    (ids : list Z) :
  run init calls = Some (w, ids) ->
  (forall k n, ids !! k = Some n -> n = Z.of_nat k + 1) /\
  (forall n, head ids = Some n -> n = 1) /\
  (forall i j m n,
     (i < j)%nat -> ids !! i = Some m -> ids !! j = Some n -> m < n) /\
  NoDup ids /\
  _next_id (repo w) = Z.of_nat (List.length ids) + 1.
Proof.
  intros Hrun. apply run_next_id in Hrun as [Hnext Hids]. simpl in *.
  assert (Hk : forall k n, ids !! k = Some n -> n = Z.of_nat k + 1).
  { intros k n Hkn. apply Hids in Hkn. lia. }
  split; [done|]. split; [|split; [|split]].
  - intros n Hhead. destruct ids as [|m ids']; [discriminate|].
    injection Hhead as ->. by apply (Hk 0%nat).
  - intros i j m n Hij Hi Hj. apply Hk in Hi, Hj. lia.
  - apply NoDup_alt. intros i j n Hi Hj. apply Hk in Hi, Hj. lia.
  - lia.
Qed.

End identifiers.

Lemma assigned_ids_sequential_witness :
  let calls := [Examples.add_python 10 5; BookService.DeleteBook 1;
                Examples.add_python 20 5; Examples.add_python 30 5;
                Examples.add_rust 40 2] in
  exists w,
    BookService.run (H := ascii_runtime) BookService.init calls
      = Some (w, [1; 2; 3]) /\
    BookRepository._next_id (BookService.repo w) = 4.
Proof.
  intros calls. eexists. split; [reflexivity|].
  eapply (assigned_ids_sequential (H := ascii_runtime) calls _ [1; 2; 3]).
  reflexivity.
Defined.

(** ** Updating fields by name *)

Lemma of_name_name (a : Attr.t) : Attr.of_name (Attr.name a) = Some a.
Proof. by destruct a. Qed.

Lemma of_name_Some (s : string) (a : Attr.t) :
  Attr.of_name s = Some a -> s = Attr.name a.
Proof.
  unfold Attr.of_name. intros Hfind.
  apply List.find_some in Hfind as [_ Heq]. symmetry.
  by apply String.eqb_eq.
Qed.

Lemma name_inj (a a' : Attr.t) : Attr.name a = Attr.name a' -> a = a'.
Proof.
  intros Heq. pose proof (of_name_name a) as Ha.
  rewrite Heq, of_name_name in Ha. by injection Ha.
Qed.

Lemma set_typed (a : Attr.t) (v : pyval) (b : Book.t) :
  Attr.typed a v = true -> is_Some (Attr.set a v b).
Proof. destruct a, v; simpl; intros Ht; try discriminate; eauto. Qed.

Lemma get_set_same (a : Attr.t) (v : pyval) (b b' : Book.t) :
  Attr.set a v b = Some b' -> Attr.get a b' = v.
Proof. destruct a, v; simpl; intros [= <-]; reflexivity. Qed.

Lemma get_set_other (a a' : Attr.t) (v : pyval) (b b' : Book.t) :
  Attr.set a v b = Some b' -> a' <> a -> Attr.get a' b' = Attr.get a' b.
Proof.
  destruct a, v; simpl; intros [= <-] Hne; destruct a'; try reflexivity;
    by destruct Hne.
Qed.


Section update.
Context `{Runtime}.
Import BookRepository BookService.

(** The loop of [update_book] on keyword arguments whose keys are distinct
    and which are [representable]: it ends, every data attribute named by a
    key holds the value given for it, and every other data attribute holds
    what it held. *)
Lemma apply_kwargs_sets (kwargs : list (string * pyval)) (b : Book.t) :
  NoDup (keys kwargs) ->
  representable kwargs = true ->
  exists b',
    apply_kwargs b kwargs = Some b' /\
    (forall a v, (Attr.name a, v) ∈ kwargs -> Attr.get a b' = v) /\
    (forall a, Attr.name a ∉ keys kwargs -> Attr.get a b' = Attr.get a b).
Proof.
  revert b. induction kwargs as [|[key value] kwargs IH]; intros b Hnd Hrep.
  - exists b. split; [done|]. split; [|done].
    intros a v Hin. inversion Hin.
  - apply NoDup_cons in Hnd as [Hfresh Hnd].
    simpl in Hrep. apply andb_true_iff in Hrep as [Hitem Hrep].
    simpl. unfold hasattr, setattr.
    destruct (Attr.of_name key) as [a0|] eqn:Hkey.
    + apply of_name_Some in Hkey as ->.
      destruct (set_typed a0 value b Hitem) as [b1 Hset]. rewrite Hset.
      destruct (IH b1 Hnd Hrep) as (b' & Hrun & Hgiven & Hkept).
      exists b'. split; [done|]. split.
      * intros a v Hin. apply elem_of_cons in Hin as [[= Hn ->]|Hin].
        -- apply name_inj in Hn as ->.
           rewrite (Hkept a0 Hfresh). by eapply get_set_same.
        -- by apply Hgiven.
      * intros a Hnot. apply not_elem_of_cons in Hnot as [Hne Hnot].
        rewrite (Hkept a Hnot). eapply get_set_other; [done|].
        by intros ->.
    + apply negb_true_iff in Hitem. rewrite Hitem.
      destruct (IH b Hnd Hrep) as (b' & Hrun & Hgiven & Hkept).
      exists b'. split; [done|]. split.
      * intros a v Hin. apply elem_of_cons in Hin as [[= Hn ->]|Hin].
        -- rewrite <- Hn, of_name_name in Hkey. discriminate.
        -- by apply Hgiven.
      * intros a Hnot. apply not_elem_of_cons in Hnot as [_ Hnot].
        by apply Hkept.
Qed.



End update.


(** ** The states the service reaches *)

Section reachable.
Context `{Runtime}.
Import BookRepository BookService.

(** Keyword arguments that name fields only do not name [__dict__]. *)
Lemma representable_no_dict (kwargs : list (string * pyval)) :
  representable kwargs = true -> "__dict__" ∉ keys kwargs.
Proof.
  induction kwargs as [|[key value] kwargs IH]; simpl.
  - intros _ Hin. inversion Hin.
  - intros [Hitem Hrep]%andb_true_iff. apply not_elem_of_cons.
    split; [|by apply IH]. intros <-. simpl in Hitem. discriminate.
Qed.

(** Short of [__dict__], the loop of [update_book] leaves alone every
    attribute that no key names. *)
Lemma apply_kwargs_keeps (kwargs : list (string * pyval)) (b b' : Book.t)
    (a : Attr.t) :
  "__dict__" ∉ keys kwargs ->
  Attr.name a ∉ keys kwargs ->
  apply_kwargs b kwargs = Some b' ->
  Attr.get a b' = Attr.get a b.
Proof.
  revert b. induction kwargs as [|[key value] kwargs IH];
    intros b Hdict Hnot; simpl.
  - by intros [= <-].
  - apply not_elem_of_cons in Hnot as [Hne Hnot].
    apply not_elem_of_cons in Hdict as [Hnd Hdict].
    destruct (hasattr b key); [|by apply IH].
    unfold setattr. destruct (Attr.of_name key) as [a0|] eqn:Hkey.
    + destruct (Attr.set a0 value b) as [b1|] eqn:Hset; [|discriminate].
      intros Hrun. rewrite (IH b1 Hdict Hnot Hrun).
      apply of_name_Some in Hkey as ->.
      eapply get_set_other; [done|]. by intros ->.
    + destruct (String.eqb_spec key "__dict__") as [->|_]; [done|].
      discriminate.
Qed.

Lemma apply_kwargs_book_id (kwargs : list (string * pyval)) (b b' : Book.t) :
  "__dict__" ∉ keys kwargs ->
  "book_id" ∉ keys kwargs ->
  apply_kwargs b kwargs = Some b' ->
  Book.book_id b' = Book.book_id b.
Proof.
  intros Hdict Hnot Hrun.
  pose proof (apply_kwargs_keeps kwargs b b' Attr.book_id Hdict Hnot Hrun)
    as Hget.
  simpl in Hget. destruct (Book.book_id b'), (Book.book_id b); congruence.
Qed.

(** Writing a cell with a book of the same identifier keeps the shape. *)
Lemma wf_write (w : state) (r : ref) (b b' : Book.t) :
  heap w !! r = Some b ->
  Book.book_id b' = Book.book_id b ->
  wf w -> wf (State (<[r := b']> (heap w)) (service w)).
Proof.
  intros Hr Hid (Hpos & Hnd & Halloc & Hdistinct).
  assert (Hold : forall r1 b1,
            (<[r := b']> (heap w)) !! r1 = Some b1 ->
            exists b0, heap w !! r1 = Some b0
                       /\ Book.book_id b0 = Book.book_id b1).
  { intros r1 b1 Hr1. destruct (decide (r1 = r)) as [->|Hne].
    - rewrite list_lookup_insert_eq in Hr1 by (by eapply lookup_lt_Some).
      injection Hr1 as <-. eauto.
    - rewrite list_lookup_insert_ne in Hr1 by done. eauto. }
  split; [done|]. split; [done|]. split.
  - intros r1 Hin. simpl. destruct (Halloc r1 Hin) as (b1 & n & Hr1 & Hn & Hlt).
    destruct (decide (r1 = r)) as [->|Hne].
    + exists b', n. rewrite list_lookup_insert_eq by (by eapply lookup_lt_Some).
      split; [done|]. split; [congruence | done].
    + exists b1, n. by rewrite list_lookup_insert_ne.
  - intros r1 r2 b1 b2 [Hin1 Hr1] [Hin2 Hr2] Heq. simpl in *.
    apply Hold in Hr1 as (c1 & Hc1 & Hid1).
    apply Hold in Hr2 as (c2 & Hc2 & Hid2).
    apply (Hdistinct r1 r2 c1 c2); [done | done | congruence].
Qed.

Lemma wf_init : wf init.
Proof.
  split; [done|]. split; [constructor|]. split.
  - intros r Hin. inversion Hin.
  - intros r1 r2 b1 b2 [Hin _]. inversion Hin.
Qed.

Lemma wf_add_book (now1 now2 : datetime) (w : state)
    (isbn title author publisher : string) (publish_date : datetime)
    (category_id : Z) (price : float) (total_quantity : Z) :
  wf w ->
  wf (add_book now1 now2 w isbn title author publisher publish_date
        category_id price total_quantity).2.
Proof.
  intros Hwf. unfold add_book.
  destruct (find_by_isbn (heap w) (repo w) isbn) as [[r b]|]; [done|].
  unfold alloc. rewrite save_new by done. simpl.
  destruct Hwf as (Hpos & Hnd & Halloc & Hdistinct).
  assert (Hlt : forall r, r ∈ _books (repo w) ->
                          (r < List.length (heap w))%nat).
  { intros r Hin. destruct (Halloc r Hin) as (b & n & Hr & _).
    by eapply lookup_lt_Some. }
  set (new := Book.set_book_id _ _).
  assert (Hcases : forall r1 b1,
            stored (State (heap w ++ [new])
                      (BookService.mk
                         (BookRepository.mk
                            (_books (repo w) ++ [List.length (heap w)])
                            (_next_id (repo w) + 1)))) r1 b1 ->
            (r1 ∈ _books (repo w) /\ heap w !! r1 = Some b1) \/
            (r1 = List.length (heap w)
             /\ Book.book_id b1 = Some (_next_id (repo w)))).
  { intros r1 b1 [Hin Hr1]. unfold repo in Hin. simpl in Hin, Hr1.
    apply elem_of_app in Hin as [Hin|Hin].
    - left. split; [done|]. by rewrite lookup_app_l in Hr1 by (by apply Hlt).
    - right. apply list_elem_of_singleton in Hin as ->. split; [done|].
      rewrite (list_lookup_middle _ [] _ _ eq_refl) in Hr1.
      by injection Hr1 as <-. }
  split; [|split; [|split]].
  - unfold repo. simpl. fold (repo w). lia.
  - unfold repo. simpl. fold (repo w).
    apply NoDup_app. split; [done|]. split; [|apply NoDup_singleton].
    intros r Hin Hnew. apply list_elem_of_singleton in Hnew.
    apply Hlt in Hin. lia.
  - unfold repo. simpl. fold (repo w).
    intros r Hin. apply elem_of_app in Hin as [Hin|Hin].
    + destruct (Halloc r Hin) as (b & n & Hr & Hn & Hrange).
      exists b, n. rewrite lookup_app_l by (by apply Hlt).
      split; [done|]. split; [done | lia].
    + apply list_elem_of_singleton in Hin as ->.
      exists new, (_next_id (repo w)).
      rewrite (list_lookup_middle _ [] _ _ eq_refl).
      split; [done|]. split; [done | lia].
  - intros r1 r2 b1 b2 Hs1 Hs2 Heq.
    apply Hcases in Hs1 as [[Hin1 Hr1]|[-> Hid1]];
      apply Hcases in Hs2 as [[Hin2 Hr2]|[-> Hid2]].
    + by apply (Hdistinct r1 r2 b1 b2).
    + destruct (Halloc r1 Hin1) as (c & n & Hc & Hn & Hrange).
      assert (c = b1) as -> by congruence.
      assert (n = _next_id (repo w)) by congruence. lia.
    + destruct (Halloc r2 Hin2) as (c & n & Hc & Hn & Hrange).
      assert (c = b2) as -> by congruence.
      assert (n = _next_id (repo w)) by congruence. lia.
    + done.
Qed.

Lemma wf_delete_book (w : state) (id : Z) :
  wf w -> wf (delete_book w id).2.
Proof.
  intros (Hpos & Hnd & Halloc & Hdistinct). unfold delete_book, delete.
  destruct (index_where (heap w) (has_id (Some id)) (_books (repo w)))
    as [i|]; simpl.
  - pose proof (sublist_delete (_books (repo w)) i) as Hsub.
    assert (Hin : forall r, r ∈ base.delete i (_books (repo w)) ->
                            r ∈ _books (repo w)).
    { intros r Hr. eapply elem_of_submseteq; [done|].
      by apply sublist_submseteq. }
    split; [done|]. split; [by eapply sublist_NoDup|]. split.
    + intros r Hr. by apply Halloc, Hin.
    + intros r1 r2 b1 b2 [Hin1 Hr1] [Hin2 Hr2]. simpl in *.
      apply (Hdistinct r1 r2 b1 b2); split; auto.
  - destruct w as [h [s]]. done.
Qed.

Lemma wf_borrow_book (now : datetime) (w : state) (id : Z) :
  wf w -> wf (borrow_book now w id).2.
Proof.
  intros Hwf. unfold borrow_book.
  destruct (find_by_id (heap w) (repo w) id) as [[r b]|] eqn:Hfind; [|done].
  destruct (Book.available_quantity b <=? 0); [done|].
  apply first_where_Some in Hfind as (_ & Hr & _).
  unfold Book.update_quantity.
  destruct (_ && _); simpl; by apply (wf_write w r b).
Qed.

Lemma wf_return_book (now : datetime) (w : state) (id : Z) :
  wf w -> wf (return_book now w id).2.
Proof.
  intros Hwf. unfold return_book.
  destruct (find_by_id (heap w) (repo w) id) as [[r b]|] eqn:Hfind; [|done].
  destruct (Book.available_quantity b >=? Book.total_quantity b); [done|].
  apply first_where_Some in Hfind as (_ & Hr & _).
  unfold Book.update_quantity.
  destruct (_ && _); simpl; by apply (wf_write w r b).
Qed.

Lemma wf_step (w w' : state) (c : call) (assigned : option Z) :
  wf w -> Notions.plain c = true -> step w c = Some (w', assigned) -> wf w'.
Proof.
  intros Hwf Hplain. destruct c; simpl in Hplain |- *.
  - pose proof (wf_add_book now1 now2 w isbn title author publisher
                  publish_date category_id price total_quantity Hwf) as Hadd.
    destruct (add_book _ _ _ _ _ _ _ _ _ _ _) as [[r|e] w1];
      by intros [= <- _].
  - by intros [= <- _].
  - by intros [= <- _].
  - by intros [= <- _].
  - by intros [= <- _].
  - destruct (decide (kwargs_bound kwargs)) as [(_ & _ & Hnot)|];
      [|discriminate].
    unfold update_book.
    destruct (find_by_id (heap w) (repo w) book_id) as [[r b]|] eqn:Hfind;
      simpl; [|by intros [= <- _]].
    destruct (apply_kwargs b kwargs) as [b'|] eqn:Hrun; simpl; [|discriminate].
    intros [= <- _].
    apply first_where_Some in Hfind as (_ & Hr & _).
    apply (wf_write w r b); [done | | done].
    apply andb_true_iff in Hplain as [_ Hrep].
    eapply apply_kwargs_book_id; [|done|done].
    by apply representable_no_dict.
  - intros [= <- _]. by apply wf_delete_book.
  - intros [= <- _]. by apply wf_borrow_book.
  - intros [= <- _]. by apply wf_return_book.
Qed.

(** Every state reached from a new service by calls whose keywords name
    fields only has the shape [wf]. *)
Lemma wf_run (calls : list call) (w : state) (ids : list Z) :
  forallb Notions.plain calls = true ->
  run init calls = Some (w, ids) -> wf w.
Proof.
  assert (Hgen : forall w0, wf w0 ->
            forall w1 ids1, forallb Notions.plain calls = true ->
              run w0 calls = Some (w1, ids1) -> wf w1).
  { induction calls as [|c calls IH]; intros w0 Hwf w1 ids1; simpl.
    - by intros _ [= <- _].
    - intros [Hc Hcalls]%andb_true_iff.
      destruct (step w0 c) as [[w2 a]|] eqn:Hstep; simpl; [|discriminate].
      destruct (run w2 calls) as [[w3 ids3]|] eqn:Hrun; simpl; [|discriminate].
      intros [= <- _]. eapply IH; [|done|done]. by eapply wf_step. }
  by apply Hgen, wf_init.
Qed.

End reachable.

Lemma add_book_cases_witness :
  let w := Examples.after [Examples.add_python 10 5] in
  BookService.add_book 20 21 w "9787115546081" "Fluent Python"
    "Luciano Ramalho" "China Machine Press" 0 2 price_99 1
  = (Raise (BookService.duplicate_isbn "9787115546081"), w) /\
  (BookService.add_book 20 21 w "9787111647813" "Fluent Python"
     "Luciano Ramalho" "China Machine Press" 0 2 price_99 1).1
  = Return 1%nat.
Proof.
  intros w. split.
  - destruct (add_book_cases 20 21 w "9787115546081" "Fluent Python"
                "Luciano Ramalho" "China Machine Press" 0 2 price_99 1)
      as (_ & Hdup & _).
    apply Hdup. eexists 0%nat, _. split; [split|].
    + by apply (bool_decide_unpack _).
    + reflexivity.
    + reflexivity.
  - destruct (add_book_cases 20 21 w "9787111647813" "Fluent Python"
                "Luciano Ramalho" "China Machine Press" 0 2 price_99 1)
      as (_ & _ & Hnew).
    destruct Hnew as [Heq _]; [|by rewrite Heq].
    intros (r & b & [Hin Hr] & Hisbn).
    vm_compute in Hin. apply list_elem_of_singleton in Hin. subst r.
    vm_compute in Hr. injection Hr as <-. discriminate.
Defined.

(** ** Scenarios

    The scenarios of the description and of the package's tests, run on
    the definitions. *)

Section scenarios.
Import BookService Examples.

(** One copy: the first borrow succeeds and leaves none, the second
    fails; the return succeeds and leaves one, a second return fails. *)
Example one_copy_scenario :
  let w0 := after [add_python 10 1] in
  let '(ok1, w1) := borrow_book 20 w0 1 in
  let '(ok2, w2) := borrow_book 30 w1 1 in
  let '(ok3, w3) := return_book 40 w2 1 in
  let '(ok4, w4) := return_book 50 w3 1 in
  [ok1; ok2; ok3; ok4] = [true; false; true; false] /\
  (Book.available_quantity ∘ snd <$> get_book_by_id w1 1) = Some 0 /\
  (Book.available_quantity ∘ snd <$> get_book_by_id w3 1) = Some 1 /\
  w2 = w1 /\ w4 = w3.
Proof. vm_compute. repeat split. Qed.

(** Two books, "Python Guide" and "Advanced Rust": a search for the title
    "Python", in any case, finds the first only; an empty title and
    category 0 filter nothing. *)
Example search_scenario :
  let w := after [add_python 10 5; add_rust 20 2] in
  search_books (H := ascii_runtime) w (Some "Python") None None = [0%nat] /\
  search_books (H := ascii_runtime) w (Some "pYTHON g") None None = [0%nat] /\
  search_books (H := ascii_runtime) w None (Some "luciano") (Some 2)
    = [1%nat] /\
  search_books (H := ascii_runtime) w (Some "") None (Some 0)
    = [0%nat; 1%nat] /\
  search_books (H := ascii_runtime) w (Some "Rust") None (Some 1) = [].
Proof. vm_compute. repeat split. Qed.

(** A deleted book is found neither by identifier nor by ISBN, and its
    identifier is not given again. *)
Example delete_scenario :
  let w := after [add_python 10 5; DeleteBook 1; add_rust 20 2] in
  get_book_by_id w 1 = None /\
  get_book_by_isbn w "9787115546081" = None /\
  (Book.book_id ∘ snd <$> get_book_by_isbn w "9787111647813")
    = Some (Some 2).
Proof. vm_compute. repeat split. Qed.

End scenarios.

(** * Further properties of the store and the service *)

(** ** Scans of the store's list *)

Section scans.
Import BookRepository.

Lemma index_where_Some (h : Heap) (p : Book.t -> bool) (books : list ref)
    (i : nat) :
  index_where h p books = Some i ->
  exists r b, books !! i = Some r /\ h !! r = Some b /\ p b = true /\
              first_where h p books = Some (r, b) /\
              forall j r', (j < i)%nat -> books !! j = Some r' ->
                           holds h p r' = false.
Proof.
  revert i. induction books as [|r0 books IH]; intros i; simpl;
    [discriminate|].
  unfold holds at 1. destruct (h !! r0) as [b0|] eqn:Hr0.
  - destruct (p b0) eqn:Hp.
    + intros [= <-]. exists r0, b0. repeat split; try done. intros j r' Hj. lia.
    + destruct (index_where h p books) as [i'|]; simpl; [|discriminate].
      intros [= <-]. destruct (IH i' eq_refl) as (r & b & Hi & Hr & Hpb & Hf & Hbefore).
      exists r, b. repeat split; try done.
      intros [|j] r' Hj Hl; simpl in Hl.
      * injection Hl as <-. unfold holds. by rewrite Hr0.
      * apply (Hbefore j); [lia | done].
  - destruct (index_where h p books) as [i'|]; simpl; [|discriminate].
    intros [= <-]. destruct (IH i' eq_refl) as (r & b & Hi & Hr & Hpb & Hf & Hbefore).
    exists r, b. repeat split; try done.
    intros [|j] r' Hj Hl; simpl in Hl.
    + injection Hl as <-. unfold holds. by rewrite Hr0.
    + apply (Hbefore j); [lia | done].
Qed.

Lemma index_where_None (h : Heap) (p : Book.t -> bool) (books : list ref) :
  index_where h p books = None <-> first_where h p books = None.
Proof.
  induction books as [|r0 books IH]; simpl; [done|].
  unfold holds. destruct (h !! r0) as [b0|].
  - destruct (p b0); [done|].
    rewrite <- IH. by destruct (index_where h p books).
  - rewrite <- IH. by destruct (index_where h p books).
Qed.

Lemma NoDup_delete_lookup {A : Type} (l : list A) (i : nat) (x : A) :
  NoDup l -> l !! i = Some x -> x ∉ base.delete i l.
Proof.
  revert i. induction l as [|y l IH]; intros i Hnd Hi; [done|].
  apply NoDup_cons in Hnd as [Hy Hnd]. destruct i as [|i]; simpl in *.
  - by injection Hi as ->.
  - apply not_elem_of_cons. split.
    + intros ->. apply Hy. by eapply list_elem_of_lookup_2.
    + by apply IH.
Qed.

Lemma elem_of_delete {A : Type} (l : list A) (i : nat) (x : A) :
  x ∈ base.delete i l -> x ∈ l.
Proof.
  intros Hin. eapply elem_of_submseteq; [done|].
  apply sublist_submseteq, sublist_delete.
Qed.

(** Deleting the first book that [p] accepts does not change what a scan
    for [q] finds, when [p] and [q] accept no common book. *)
Lemma first_where_delete_other (h : Heap) (p q : Book.t -> bool)
    (books : list ref) (i : nat) :
  index_where h p books = Some i ->
  (forall b, p b = true -> q b = false) ->
  first_where h q (base.delete i books) = first_where h q books.
Proof.
  intros Hi Hpq. revert i Hi.
  induction books as [|r0 books IH]; intros i; simpl; [discriminate|].
  unfold holds. destruct (h !! r0) as [b0|] eqn:Hr0.
  - destruct (p b0) eqn:Hp.
    + intros [= <-]. simpl. by rewrite (Hpq b0 Hp).
    + destruct (index_where h p books) as [i'|]; simpl; [|discriminate].
      intros [= <-]. simpl. rewrite Hr0. by rewrite (IH i' eq_refl).
  - destruct (index_where h p books) as [i'|]; simpl; [|discriminate].
    intros [= <-]. simpl. rewrite Hr0. by rewrite (IH i' eq_refl).
Qed.

(** After deleting position [i] of a list without repetition, a scan for
    [q] finds nothing when the reference that stood at [i] was the only one
    whose book [q] accepts. *)
Lemma first_where_delete_only (h : Heap) (q : Book.t -> bool)
    (books : list ref) (i : nat) (r0 : ref) :
  NoDup books ->
  books !! i = Some r0 ->
  (forall r b, r ∈ books -> h !! r = Some b -> q b = true -> r = r0) ->
  first_where h q (base.delete i books) = None.
Proof.
  intros Hnd Hi Honly.
  apply first_where_None. intros r b Hin Hr.
  destruct (q b) eqn:Hq; [|done]. exfalso.
  assert (r = r0) as ->.
  { apply (Honly r b); try done. by eapply elem_of_delete. }
  by apply (NoDup_delete_lookup books i r0).
Qed.

Lemma first_where_app (h : Heap) (p : Book.t -> bool) (l1 l2 : list ref) :
  first_where h p (l1 ++ l2) =
    match first_where h p l1 with
    | Some found => Some found
    | None => first_where h p l2
    end.
Proof.
  induction l1 as [|r l1 IH]; simpl; [done|].
  destruct (h !! r) as [b|]; [|done]. by destruct (p b).
Qed.

(** Allocation does not change what a scan over allocated references
    finds. *)
Lemma first_where_alloc (h : Heap) (p : Book.t -> bool) (l : list ref)
    (new : Book.t) :
  (forall r, r ∈ l -> (r < List.length h)%nat) ->
  first_where (h ++ [new]) p l = first_where h p l.
Proof.
  induction l as [|r l IH]; intros Hlt; simpl; [done|].
  rewrite lookup_app_l by (apply Hlt; left).
  rewrite IH by (intros r' Hr'; apply Hlt; by right). done.
Qed.

(** A scan that found nothing finds, after an allocation and an append of
    the new reference, the new book if [p] accepts it. *)
Lemma first_where_alloc_new (h : Heap) (p : Book.t -> bool) (l : list ref)
    (new : Book.t) :
  first_where h p l = None ->
  p new = true ->
  first_where (h ++ [new]) p (l ++ [List.length h])
  = Some (List.length h, new).
Proof.
  intros Hnone Hp. induction l as [|r l IH]; simpl in *.
  - by rewrite (list_lookup_middle h [] new _ eq_refl), Hp.
  - destruct (h !! r) as [b|] eqn:Hr.
    + rewrite (lookup_app_l_Some _ _ _ _ Hr).
      destruct (p b); [discriminate | by apply IH].
    + apply lookup_ge_None in Hr.
      destruct (decide (r = List.length h)) as [->|Hne].
      * by rewrite (list_lookup_middle h [] new _ eq_refl), Hp.
      * rewrite (proj2 (lookup_ge_None (h ++ [new]) r))
          by (rewrite length_app; simpl; lia).
        by apply IH.
Qed.

End scans.

(** ** Deleting *)

Section deleting.
Import BookRepository BookService.

Lemma delete_book_result (w : state) (id : Z) :
  match index_where (heap w) (has_id (Some id)) (_books (repo w)) with
  | Some i =>
      delete_book w id =
        (true, State (heap w)
                 (BookService.mk
                    (BookRepository.mk (base.delete i (_books (repo w)))
                       (_next_id (repo w)))))
  | None => delete_book w id = (false, w)
  end.
Proof.
  unfold delete_book, delete.
  destruct (index_where (heap w) (has_id (Some id)) (_books (repo w)));
    [done|]. by destruct w as [h [[l n]]].
Qed.

(** X1.  In a store that lists no book twice and in which no two stored
    books share an identifier, [delete_book(id)] returns true exactly when
    [get_book_by_id(id)] finds a book, and afterwards [get_book_by_id(id)]
    finds none; when moreover no two stored books share an ISBN,
    [get_book_by_isbn] of the deleted book's ISBN finds none either. *)
Theorem delete_book_then_not_found (w : state) (id : Z) :
  Notions.ids_distinct w ->
  let out := delete_book w id in
  (out.1 = true <-> exists r b, get_book_by_id w id = Some (r, b)) /\
  get_book_by_id out.2 id = None /\
  (Notions.isbn_unique w ->
   forall r b, get_book_by_id w id = Some (r, b) ->
     get_book_by_isbn out.2 (Book.isbn b) = None).
Proof.
  intros (Hnd & Hdistinct) out. subst out.
  pose proof (delete_book_result w id) as Hres.
  unfold get_book_by_id, get_book_by_isbn, find_by_id, find_by_isbn.
  destruct (index_where (heap w) (has_id (Some id)) (_books (repo w)))
    as [i|] eqn:Hi.
  - rewrite Hres. simpl.
    apply index_where_Some in Hi as (r0 & b0 & Hl & Hr0 & Hp0 & Hfirst & _).
    assert (Hin0 : r0 ∈ _books (repo w)) by (by eapply list_elem_of_lookup_2).
    apply has_id_true in Hp0.
    split; [split; [eauto | done]|]. split.
    + apply (first_where_delete_only _ _ _ i r0); [done | done |].
      intros r b Hin Hr Hid. apply has_id_true in Hid.
      apply (Hdistinct r r0 b b0); [done | done | congruence].
    + intros Hisbn r b Hfind. rewrite Hfirst in Hfind. injection Hfind as <- <-.
      apply (first_where_delete_only _ _ _ i r0); [done | done |].
      intros r b Hin Hr Heq. apply String.eqb_eq in Heq.
      by apply (Hisbn r r0 b b0).
  - rewrite Hres. simpl. apply index_where_None in Hi.
    split; [split; [discriminate|]|].
    + intros (r & b & Hfind). unfold get_book_by_id, find_by_id in Hfind.
      congruence.
    + split; [done|]. intros _ r b Hfind. congruence.
Qed.

Lemma delete_book_then_not_found_witness :
  let w := Examples.after [Examples.add_python 10 5; Examples.add_rust 20 2] in
  (delete_book w 1).1 = true /\
  get_book_by_id (delete_book w 1).2 1 = None /\
  get_book_by_isbn (delete_book w 1).2 "9787115546081" = None.
Proof.
  intros w.
  assert (Hwf : Notions.ids_distinct w).
  { destruct (wf_run (H := ascii_runtime)
                [Examples.add_python 10 5; Examples.add_rust 20 2] w [1; 2]
                eq_refl eq_refl) as (_ & Hnd & _ & Hdistinct).
    by split. }
  destruct (delete_book_then_not_found w 1 Hwf) as (Htrue & Hid & Hisbn).
  split; [apply Htrue; by eexists _, _|]. split; [exact Hid|].
  apply (Hisbn ltac:(intros r1 r2 b1 b2 [Hin1 Hr1] [Hin2 Hr2] Heq;
                      vm_compute in Hin1, Hin2;
                      apply elem_of_cons in Hin1 as [->|Hin1];
                      [|apply list_elem_of_singleton in Hin1 as ->];
                      (apply elem_of_cons in Hin2 as [->|Hin2];
                       [|apply list_elem_of_singleton in Hin2 as ->]);
                      try reflexivity;
                      vm_compute in Hr1, Hr2;
                      injection Hr1 as <-; injection Hr2 as <-;
                      discriminate) 0%nat _ eq_refl).
Defined.

(** X2.  [delete_book(id)] never touches a book object or the counter, and
    takes at most one reference off the store's list, keeping the order
    of the rest: it returns false and changes nothing exactly when no
    stored book has the identifier, otherwise the list is one shorter; and
    what [get_book_by_id] finds for any other identifier is the same
    before and after. *)
Theorem delete_book_frame (w : state) (id : Z) :
  let out := delete_book w id in
  heap out.2 = heap w /\
  _next_id (repo out.2) = _next_id (repo w) /\
  _books (repo out.2) `sublist_of` _books (repo w) /\
  (out.1 = false <->
     forall r b, stored w r b -> Book.book_id b <> Some id) /\
  (out.1 = false -> out.2 = w) /\
  (out.1 = true ->
     S (List.length (_books (repo out.2)))
     = List.length (_books (repo w))) /\
  (forall id', id' <> id ->
     get_book_by_id out.2 id' = get_book_by_id w id').
Proof.
  intros out. subst out. pose proof (delete_book_result w id) as Hres.
  destruct (index_where (heap w) (has_id (Some id)) (_books (repo w)))
    as [i|] eqn:Hi; rewrite Hres; simpl.
  - split; [done|]. split; [done|]. split; [apply sublist_delete|].
    pose proof (index_where_Some _ _ _ _ Hi)
      as (r0 & b0 & Hl & Hr0 & Hp0 & _ & _).
    split; [split; [discriminate|]|].
    + intros Hnone. apply has_id_true in Hp0.
      destruct (Hnone r0 b0); [|done].
      split; [by eapply list_elem_of_lookup_2 | done].
    + split; [discriminate|]. split.
      * intros _. rewrite length_delete by eauto.
        apply lookup_lt_Some in Hl. lia.
      * intros id' Hne. unfold get_book_by_id, find_by_id, repo. simpl.
        apply (first_where_delete_other _ (has_id (Some id))); [done|].
        intros b Hb. apply has_id_true in Hb. apply has_id_false.
        congruence.
  - split; [done|]. split; [done|]. split; [done|].
    apply index_where_None in Hi.
    split; [split; [intros _; by apply find_by_id_None | done]|].
    split; [done|]. split; [discriminate | done].
Qed.

(** X3.  For an identifier that no stored book has, [get_book_by_id]
    finds nothing and [update_book] returns nothing and changes nothing,
    whatever the keyword arguments. *)
Theorem unknown_id_changes_nothing `{Runtime} (w : state) (id : Z)
    (kwargs : list (string * pyval)) :
  (forall r b, stored w r b -> Book.book_id b <> Some id) ->
  get_book_by_id w id = None /\
  update_book w id kwargs = Some (None, w).
Proof.
  intros Hnone. apply find_by_id_None in Hnone.
  unfold get_book_by_id, update_book. by rewrite Hnone.
Qed.

End deleting.

Lemma unknown_id_changes_nothing_witness :
  let w := Examples.after [Examples.add_python 10 5] in
  BookService.get_book_by_id w 999 = None /\
  BookService.update_book (H := ascii_runtime) w 999
    [("price", PyFloat price_99)] = Some (None, w).
Proof.
  intros w.
  apply (unknown_id_changes_nothing (H := ascii_runtime) w 999).
  intros r b [Hin Hr].
  vm_compute in Hin. apply list_elem_of_singleton in Hin. subst r.
  vm_compute in Hr. injection Hr as <-. discriminate.
Defined.

(** ** Adding, then looking up *)

Section adding.
Import BookRepository BookService.

(** The state after an [add_book] that does not raise, and what the scans
    find in it. *)
Lemma add_book_fresh (now1 now2 : datetime) (w : state)
    (isbn title author publisher : string) (publish_date : datetime)
    (category_id : Z) (price : float) (total_quantity : Z) :
  find_by_isbn (heap w) (repo w) isbn = None ->
  let book := List.length (heap w) in
  let new := Book.mk (Some (_next_id (repo w))) isbn title author publisher
               publish_date category_id price total_quantity total_quantity
               now1 now2 in
  let w' := State (heap w ++ [new])
              (BookService.mk
                 (BookRepository.mk (_books (repo w) ++ [book])
                    (_next_id (repo w) + 1))) in
  add_book now1 now2 w isbn title author publisher publish_date
    category_id price total_quantity = (Return book, w') /\
  find_by_isbn (heap w') (repo w') isbn = Some (book, new) /\
  (find_by_id (heap w) (repo w) (_next_id (repo w)) = None ->
   find_by_id (heap w') (repo w') (_next_id (repo w)) = Some (book, new)).
Proof.
  intros Hnone book new w'. subst w' book.
  split; [|split].
  - unfold add_book. rewrite Hnone. unfold alloc. by rewrite save_new.
  - unfold find_by_isbn, repo. simpl. fold (repo w).
    apply first_where_alloc_new; [done|]. simpl. by rewrite String.eqb_refl.
  - intros Hfree. unfold find_by_id, repo. simpl. fold (repo w).
    apply first_where_alloc_new; [done|]. by apply has_id_true.
Qed.

(** X4.  After an [add_book] that does not raise, [get_book_by_isbn] with
    the ISBN given finds the object [add_book] returned, and it has the
    ISBN, title, author and the other fields given and the counter's value
    as its identifier; when no stored book carried that value as its
    identifier before the call, [get_book_by_id] with it finds that object
    too. *)
Theorem add_book_then_found (now1 now2 : datetime) (w : state)
    (isbn title author publisher : string) (publish_date : datetime)
    (category_id : Z) (price : float) (total_quantity : Z)
    (book : ref) (w' : state) :
  add_book now1 now2 w isbn title author publisher publish_date
    category_id price total_quantity = (Return book, w') ->
  exists b,
    get_book_by_isbn w' isbn = Some (book, b) /\
    b = Book.set_book_id (Some (_next_id (repo w)))
          (Book.__init__ now1 now2 (Some 0) isbn title author publisher
             publish_date category_id price total_quantity) /\
    Book.book_id b = Some (_next_id (repo w)) /\
    ((forall r0 b0, stored w r0 b0 ->
        Book.book_id b0 <> Some (_next_id (repo w))) ->
     get_book_by_id w' (_next_id (repo w)) = Some (book, b)).
Proof.
  intros Hadd.
  destruct (find_by_isbn (heap w) (repo w) isbn) as [[r0 b0]|] eqn:Hfind.
  { unfold add_book in Hadd. rewrite Hfind in Hadd. discriminate. }
  destruct (add_book_fresh now1 now2 w isbn title author publisher
              publish_date category_id price total_quantity Hfind)
    as (Heq & Hisbn & Hid).
  rewrite Heq in Hadd. injection Hadd as <- <-.
  eexists. split; [exact Hisbn|]. split; [done|]. split; [done|].
  intros Hfree. apply Hid. by apply find_by_id_None.
Qed.

(** X5.  An [add_book] made in the state that a successful [add_book]
    left, with the same ISBN, raises the duplicate-ISBN error and changes
    nothing, whatever its other arguments. *)
Theorem add_book_twice_raises (now1 now2 : datetime) (w : state)
    (isbn title author publisher : string) (publish_date : datetime)
    (category_id : Z) (price : float) (total_quantity : Z)
    (book : ref) (w' : state) :
  add_book now1 now2 w isbn title author publisher publish_date
    category_id price total_quantity = (Return book, w') ->
  forall (now3 now4 : datetime) (title' author' publisher' : string)
         (publish_date' : datetime) (category_id' : Z) (price' : float)
         (total_quantity' : Z),
    add_book now3 now4 w' isbn title' author' publisher' publish_date'
      category_id' price' total_quantity'
    = (Raise (duplicate_isbn isbn), w').
Proof.
  intros Hadd.
  destruct (find_by_isbn (heap w) (repo w) isbn) as [[r0 b0]|] eqn:Hfind.
  { unfold add_book in Hadd. rewrite Hfind in Hadd. discriminate. }
  destruct (add_book_fresh now1 now2 w isbn title author publisher
              publish_date category_id price total_quantity Hfind)
    as (Heq & Hisbn & _).
  rewrite Heq in Hadd. injection Hadd as <- <-.
  intros. unfold add_book. by rewrite Hisbn.
Qed.

End adding.

Lemma add_book_then_found_witness :
  let w := Examples.after [Examples.add_python 10 5] in
  exists w' b,
    BookService.add_book 20 21 w "9787111647813" "Fluent Python"
      "Luciano Ramalho" "China Machine Press" 0 2 price_99 3
    = (Return 1%nat, w') /\
    BookService.get_book_by_isbn w' "9787111647813" = Some (1%nat, b) /\
    BookService.get_book_by_id w' 2 = Some (1%nat, b) /\
    Book.title b = "Fluent Python".
Proof.
  intros w.
  destruct (add_book_then_found 20 21 w "9787111647813" "Fluent Python"
              "Luciano Ramalho" "China Machine Press" 0 2 price_99 3
              1%nat _ eq_refl) as (b & Hisbn & Hb & _ & Hid).
  eexists _, b. split; [reflexivity|]. split; [exact Hisbn|]. split.
  - apply Hid. intros r0 b0 [Hin Hr].
    vm_compute in Hin. apply list_elem_of_singleton in Hin. subst r0.
    vm_compute in Hr. injection Hr as <-. discriminate.
  - by rewrite Hb.
Defined.

Lemma add_book_twice_raises_witness :
  let w := Examples.after [] in
  exists w',
    BookService.add_book 20 21 w "9787111647813" "Fluent Python"
      "Luciano Ramalho" "China Machine Press" 0 2 price_99 3
    = (Return 0%nat, w') /\
    BookService.add_book 30 31 w' "9787111647813" "Another title"
      "Another author" "Another press" 5 7 price_89 1
    = (Raise (BookService.duplicate_isbn "9787111647813"), w').
Proof.
  intros w. eexists. split; [reflexivity|].
  apply (add_book_twice_raises 20 21 w "9787111647813" "Fluent Python"
           "Luciano Ramalho" "China Machine Press" 0 2 price_99 3 0%nat).
  reflexivity.
Defined.

(** ** Identifiers in the states the service reaches *)

Section reached.
Context `{Runtime}.
Import BookRepository BookService.

(** A call whose keywords name fields only always runs. *)
Lemma step_plain (w : state) (c : call) :
  Notions.plain c = true -> exists w' assigned, step w c = Some (w', assigned).
Proof.
  destruct c; simpl; intros Hplain; eauto.
  - destruct (add_book _ _ _ _ _ _ _ _ _ _ _) as [[book|e] w1]; eauto.
  - apply andb_true_iff in Hplain as [Hbound Hrep].
    apply bool_decide_eq_true in Hbound. rewrite decide_True by done.
    unfold update_book.
    destruct (find_by_id (heap w) (repo w) book_id) as [[r b]|]; simpl;
      [|eauto].
    destruct Hbound as (Hnd & _).
    destruct (apply_kwargs_sets kwargs b Hnd Hrep) as (b' & -> & _).
    simpl. eauto.
Qed.

Lemma run_plain (calls : list call) (w : state) :
  forallb Notions.plain calls = true ->
  exists w' ids, run w calls = Some (w', ids).
Proof.
  revert w. induction calls as [|c calls IH]; intros w; simpl; [eauto|].
  intros [Hc Hcalls]%andb_true_iff.
  destruct (step_plain w c Hc) as (w1 & a & ->). simpl.
  destruct (IH w1 Hcalls) as (w2 & ids & ->). simpl. eauto.
Qed.

(** X6.  Any sequence of calls on a new service in which every
    [update_book] passes keywords that name fields only (data attributes
    with values of their types, or names that are no attribute of a book)
    runs to the end, and then: every stored book carries an identifier
    that [save] assigned (a number from 1 to the count of identifiers
    assigned so far), no two stored books share an identifier, and the
    store's list holds no book twice. *)
Theorem reached_ids_distinct (calls : list call) :
  forallb Notions.plain calls = true ->
  exists w ids,
    run init calls = Some (w, ids) /\
    (forall r b, stored w r b ->
       exists n, Book.book_id b = Some n /\ n ∈ ids
                 /\ 1 <= n <= Z.of_nat (List.length ids)) /\
    (forall r1 r2 b1 b2, stored w r1 b1 -> stored w r2 b2 ->
       Book.book_id b1 = Book.book_id b2 -> r1 = r2) /\
    NoDup (_books (repo w)) /\
    (forall r, r ∈ get_all_books w -> is_Some (heap w !! r)).
Proof.
  intros Hplain. destruct (run_plain calls init Hplain) as (w & ids & Hrun).
  exists w, ids. split; [done|].
  pose proof (wf_run calls w ids Hplain Hrun)
    as (_ & Hnd & Halloc & Hdistinct).
  pose proof (run_next_id calls init w ids Hrun) as [Hnext Hids].
  simpl in Hnext.
  assert (Hall : forall k, (k < List.length ids)%nat ->
                           ids !! k = Some (Z.of_nat k + 1)).
  { intros k Hk. destruct (lookup_lt_is_Some_2 ids k Hk) as [n Hn].
    rewrite Hn. f_equal. apply Hids in Hn. simpl in Hn. lia. }
  split; [|split; [done|split; [done|]]].
  - intros r b [Hin Hr]. destruct (Halloc r Hin) as (c & n & Hc & Hn & Hrange).
    assert (c = b) as -> by congruence.
    exists n. split; [done|]. split; [|lia].
    apply list_elem_of_lookup. exists (Z.to_nat (n - 1)).
    rewrite Hall by lia. f_equal. lia.
  - intros r Hin. destruct (Halloc r Hin) as (b & n & Hr & _). eauto.
Qed.

End reached.

Lemma reached_ids_distinct_witness :
  let calls := [Examples.add_python 10 5; Examples.add_rust 20 2;
                BookService.UpdateBook 2
                  [("title", PyStr "Rust in Depth"); ("shelf", PyStr "B2")];
                BookService.DeleteBook 1; Examples.add_python 30 1] in
  exists w,
    BookService.run (H := ascii_runtime) BookService.init calls
      = Some (w, [1; 2; 3]) /\
    NoDup (BookRepository._books (BookService.repo w)).
Proof.
  intros calls.
  destruct (reached_ids_distinct (H := ascii_runtime) calls eq_refl)
    as (w & ids & Hrun & _ & _ & Hnd & _).
  exists w. split; [|exact Hnd].
  rewrite Hrun. vm_compute in Hrun. by injection Hrun as _ <-.
Defined.

Section lookup_by_id.
Import BookRepository BookService.

(** X7.  In a store in which no two stored books share an identifier,
    [get_book_by_id(id)] finds a book exactly when it is stored with that
    identifier: the lookup cannot miss a stored book behind another one,
    and what it finds is the only book with the identifier. *)
Theorem get_book_by_id_iff_stored (w : state) (id : Z) (r : ref)
    (b : Book.t) :
  (forall r1 r2 b1 b2, stored w r1 b1 -> stored w r2 b2 ->
     Book.book_id b1 = Book.book_id b2 -> r1 = r2) ->
  (get_book_by_id w id = Some (r, b) <->
   stored w r b /\ Book.book_id b = Some id).
Proof.
  intros Hdistinct. split.
  - apply find_by_id_stored.
  - intros [Hst Hid]. unfold get_book_by_id.
    destruct (find_by_id (heap w) (repo w) id) as [[r' b']|] eqn:Hfind.
    + apply find_by_id_stored in Hfind as [Hst' Hid'].
      assert (r' = r) as -> by (apply (Hdistinct r' r b' b); congruence).
      destruct Hst as [_ Hr], Hst' as [_ Hr']. congruence.
    + exfalso. by apply (proj1 (find_by_id_None w id) Hfind r b).
Qed.

Lemma get_book_by_id_iff_stored_witness :
  let w := Examples.after [Examples.add_python 10 5; Examples.add_rust 20 2] in
  exists b, get_book_by_id w 2 = Some (1%nat, b)
            /\ Book.title b = "Advanced Rust".
Proof.
  intros w.
  destruct (wf_run (H := ascii_runtime)
              [Examples.add_python 10 5; Examples.add_rust 20 2] w [1; 2]
              eq_refl eq_refl) as (_ & _ & _ & Hdistinct).
  eexists. split.
  - apply (get_book_by_id_iff_stored w 2 1%nat _ Hdistinct).
    split; [split|]; [by apply (bool_decide_unpack _) | reflexivity ..].
  - reflexivity.
Defined.

End lookup_by_id.

(** ** Searching *)

Section searching.
Context `{Runtime}.
Import BookRepository BookService.


Lemma filter_twice {A : Type} (f g : A -> bool) (l : list A) :
  List.filter f (List.filter g l) = List.filter (fun x => g x && f x) l.
Proof.
  induction l as [|x l IH]; simpl; [done|].
  destruct (g x); simpl; [|done]. destruct (f x); by rewrite IH.
Qed.

Lemma filter_sublist {A : Type} (keep : A -> bool) (l : list A) :
  List.filter keep l `sublist_of` l.
Proof.
  induction l as [|x l IH]; simpl; [constructor|].
  destruct (keep x); by constructor.
Qed.

Lemma find_by_params_filter (h : Heap) (self : BookRepository.t)
    (title author : option string) (category_id : option Z) :
  find_by_params h self title author category_id
  = List.filter (holds h (params_match title author category_id))
      (_books self).
Proof. unfold find_by_params. by rewrite append_loop_filter. Qed.

Lemma params_match_split (title author : option string)
    (category_id : option Z) (book : Book.t) :
  params_match title author category_id book
  = params_match title None None book
    && params_match None author category_id book.
Proof.
  unfold params_match.
  destruct title as [t|], author as [a|], category_id as [c|];
    repeat match goal with
           | |- context [if ?x then _ else _] => destruct x
           end; reflexivity.
Qed.


(** X9.  Filters narrow a search: searching with a title, an author and a
    category gives the list that searching with the title alone gives,
    filtered by the author and the category; so each result of the full
    search is a result of the title-only search, and every search returns
    books of [get_all_books] in their order. *)
Theorem search_filters_narrow (w : state) (title author : option string)
    (category_id : option Z) :
  search_books w title author category_id
  = List.filter
      (holds (heap w) (params_match None author category_id))
      (search_books w title None None) /\
  (forall r, r ∈ search_books w title author category_id ->
             r ∈ search_books w title None None
             /\ r ∈ search_books w None author category_id) /\
  search_books w title author category_id `sublist_of` get_all_books w.
Proof.
  unfold search_books, get_all_books, find_all.
  rewrite !find_by_params_filter.
  assert (Hsplit : forall r,
            holds (heap w) (params_match title author category_id) r
            = holds (heap w) (params_match title None None) r
              && holds (heap w) (params_match None author category_id) r).
  { intros r. unfold holds. destruct (heap w !! r) as [b|]; [|done].
    apply params_match_split. }
  split; [|split].
  - rewrite filter_twice. apply List.filter_ext. intros r. apply Hsplit.
  - intros r. rewrite !list_elem_of_In, !List.filter_In, Hsplit.
    rewrite andb_true_iff. tauto.
  - apply filter_sublist.
Qed.

End searching.


(** ** Changes of quantity that compose and undo *)

Section quantities.
Import BookRepository BookService.

(** X10.  On a book within bounds, a change of quantity that succeeds can
    be undone: the opposite change succeeds too and gives back the book
    as it was, except for [update_time]. *)
Theorem update_quantity_undo (now1 now2 : datetime) (b : Book.t) (d : Z) :
  0 <= Book.available_quantity b <= Book.total_quantity b ->
  (Book.update_quantity now1 b d).1 = true ->
  Book.update_quantity now2 (Book.update_quantity now1 b d).2 (- d)
  = (true, Book.set_update_time now2 b).
Proof.
  intros Hinv Hok.
  destruct (decide (0 <= Book.available_quantity b + d
                    <= Book.total_quantity b)) as [Hin|Hout].
  - rewrite (update_quantity_true now1 b d Hin). simpl.
    rewrite update_quantity_true by (simpl; lia). f_equal.
    destruct b. unfold Book.set_update_time, Book.set_available_quantity.
    simpl. f_equal. lia.
  - rewrite (update_quantity_false now1 b d Hout) in Hok. discriminate.
Qed.

Lemma update_quantity_undo_witness :
  let b := Book.__init__ 10 11 (Some 1) "9787115546081" "Python Guide"
             "Eric Matthes" "Posts and Telecom Press" 0 1 price_89 5 in
  Book.update_quantity 30 (Book.update_quantity 20 b (-3)).2 3
  = (true, Book.set_update_time 30 b).
Proof.
  intros b.
  apply (update_quantity_undo 20 30 b (-3)); [simpl; lia | reflexivity].
Defined.

(** X11.  Two changes of quantity that both succeed amount to one change
    by their sum made at the time of the second. *)
Theorem update_quantity_compose (now1 now2 : datetime) (b : Book.t)
    (d1 d2 : Z) :
  (Book.update_quantity now1 b d1).1 = true ->
  (Book.update_quantity now2 (Book.update_quantity now1 b d1).2 d2).1
    = true ->
  Book.update_quantity now2 (Book.update_quantity now1 b d1).2 d2
  = Book.update_quantity now2 b (d1 + d2).
Proof.
  intros Hok1 Hok2.
  destruct (decide (0 <= Book.available_quantity b + d1
                    <= Book.total_quantity b)) as [Hin1|Hout1].
  - rewrite (update_quantity_true now1 b d1 Hin1) in *. simpl in *.
    set (b1 := Book.set_update_time now1 _) in *.
    destruct (decide (0 <= Book.available_quantity b1 + d2
                      <= Book.total_quantity b1)) as [Hin2|Hout2].
    + rewrite (update_quantity_true now2 b1 d2 Hin2).
      subst b1. simpl in Hin2.
      rewrite update_quantity_true by lia. f_equal.
      destruct b. unfold Book.set_update_time, Book.set_available_quantity.
      simpl. f_equal. lia.
    + rewrite (update_quantity_false now2 b1 d2 Hout2) in Hok2. discriminate.
  - rewrite (update_quantity_false now1 b d1 Hout1) in Hok1. discriminate.
Qed.

Lemma update_quantity_compose_witness :
  let b := Book.__init__ 10 11 (Some 1) "9787115546081" "Python Guide"
             "Eric Matthes" "Posts and Telecom Press" 0 1 price_89 5 in
  Book.update_quantity 30 (Book.update_quantity 20 b (-3)).2 2
  = Book.update_quantity 30 b (-1).
Proof.
  intros b.
  apply (update_quantity_compose 20 30 b (-3) 2); reflexivity.
Defined.

Lemma moved_forth (now1 now2 : datetime) (b : Book.t) :
  Book.moved now2 (-1) (Book.moved now1 1 b) = Book.set_update_time now2 b.
Proof.
  destruct b. unfold Book.moved, Book.set_update_time,
    Book.set_available_quantity. simpl. f_equal. lia.
Qed.

(** X12.  For a stored book with
    [0 <= available_quantity < total_quantity], [return_book(id)] and then
    [borrow_book(id)] both succeed and leave the book as it was, its
    [available_quantity] included, except for [update_time]. *)
Theorem return_then_borrow (now1 now2 : datetime) (w : state) (id : Z)
    (r : ref) (b : Book.t) :
  find_by_id (heap w) (repo w) id = Some (r, b) ->
  0 <= Book.available_quantity b < Book.total_quantity b ->
  let w1 := (return_book now1 w id).2 in
  let w2 := (borrow_book now2 w1 id).2 in
  (return_book now1 w id).1 = true /\
  (borrow_book now2 w1 id).1 = true /\
  w2 = State (<[r := Book.set_update_time now2 b]> (heap w)) (service w) /\
  get_book_by_id w2 id = Some (r, Book.set_update_time now2 b).
Proof.
  intros Hfind [Hlo Hhi] w1 w2.
  assert (Hreturn := return_book_succeeds now1 w id r b Hfind
                       ltac:(lia) ltac:(lia)).
  assert (Hfind1 : find_by_id (heap w1) (repo w1) id
                   = Some (r, Book.moved now1 1 b)).
  { subst w1. rewrite Hreturn. simpl. by apply (find_by_id_write w id r b). }
  assert (Hborrow := borrow_book_succeeds now2 w1 id r _ Hfind1
                       ltac:(simpl; lia) ltac:(simpl; lia)).
  assert (Hw2 : w2 = State (<[r := Book.set_update_time now2 b]> (heap w))
                       (service w)).
  { subst w2. rewrite Hborrow. simpl. subst w1. rewrite Hreturn. simpl.
    by rewrite list_insert_insert_eq, moved_forth. }
  split; [by rewrite Hreturn|]. split; [by rewrite Hborrow|].
  split; [done|]. rewrite Hw2. by apply (find_by_id_write w id r b).
Qed.

Lemma return_then_borrow_witness :
  let w := Examples.after [Examples.add_python 10 5; BorrowBook 15 1] in
  exists b,
    get_book_by_id w 1 = Some (0%nat, b) /\
    get_book_by_id (borrow_book 30 (return_book 20 w 1).2 1).2 1
      = Some (0%nat, Book.set_update_time 30 b).
Proof.
  intros w. eexists. split; [reflexivity|].
  eapply (return_then_borrow 20 30 w 1 0%nat).
  - reflexivity.
  - vm_compute. split; [discriminate | reflexivity].
Defined.

(** X13.  For a stored book within bounds, the status tells whether a
    copy can be borrowed: [get_status] is the "available" string exactly
    when [borrow_book] succeeds, and the "on loan" string exactly when
    [available_quantity] is 0. *)
Theorem status_tells_borrow (now : datetime) (w : state) (id : Z)
    (r : ref) (b : Book.t) :
  find_by_id (heap w) (repo w) id = Some (r, b) ->
  0 <= Book.available_quantity b <= Book.total_quantity b ->
  (Book.get_status b = Book.status_available <->
     (borrow_book now w id).1 = true) /\
  (Book.get_status b = Book.status_on_loan <->
     Book.available_quantity b = 0).
Proof.
  intros Hfind Hinv. pose proof status_strings_differ as Hdiff.
  unfold Book.get_status, borrow_book. rewrite Hfind.
  destruct (Z.gtb_spec (Book.available_quantity b) 0);
    destruct (Z.leb_spec (Book.available_quantity b) 0); try lia.
  - rewrite update_quantity_true by lia. simpl.
    repeat split; intros; try done; try congruence; lia.
  - simpl. repeat split; intros; try done; try congruence; lia.
Qed.

Lemma status_tells_borrow_witness :
  let w := Examples.after [Examples.add_python 10 1; BorrowBook 20 1] in
  exists b,
    get_book_by_id w 1 = Some (0%nat, b) /\
    Book.get_status b = Book.status_on_loan /\
    ~ (borrow_book 30 w 1).1 = true.
Proof.
  intros w. eexists. split; [reflexivity|].
  destruct (status_tells_borrow 30 w 1 0%nat _ eq_refl
              ltac:(vm_compute; split; discriminate)) as [Hav Hloan].
  split; [by apply Hloan|].
  intros Hok. apply Hav in Hok. vm_compute in Hok. discriminate.
Defined.

End quantities.

(** ** Borrowing until no copy is left *)

Section exhausting.
Import BookRepository BookService Notions.

(** X14.  For a stored book within bounds with [n] copies available,
    successive calls of [borrow_book(id)] succeed [n] times and fail from
    then on; in the end [available_quantity] is [n] less the number of
    successes, never below 0, and [total_quantity] is what it was. *)
Theorem borrow_until_exhausted (nows : list datetime) (w : state) (id : Z)
    (r : ref) (b : Book.t) :
  find_by_id (heap w) (repo w) id = Some (r, b) ->
  0 <= Book.available_quantity b <= Book.total_quantity b ->
  let k := Nat.min (List.length nows)
             (Z.to_nat (Book.available_quantity b)) in
  (borrow_times nows w id).1
    = repeat true k ++ repeat false (List.length nows - k) /\
  exists b',
    get_book_by_id (borrow_times nows w id).2 id = Some (r, b') /\
    Book.available_quantity b' = Book.available_quantity b - Z.of_nat k /\
    Book.total_quantity b' = Book.total_quantity b.
Proof.
  revert w b. induction nows as [|now nows IH]; intros w b Hfind Hinv k;
    subst k.
  - simpl. split; [done|]. exists b. split; [done|]. lia.
  - cbn [borrow_times List.length].
    destruct (decide (0 < Book.available_quantity b)) as [Hpos|Hzero].
    + rewrite (borrow_book_succeeds now w id r b Hfind) by lia.
      set (w1 := State _ _).
      assert (Hfind1 : find_by_id (heap w1) (repo w1) id
                       = Some (r, Book.moved now (-1) b))
        by (by apply (find_by_id_write w id r b)).
      pose proof (IH w1 _ Hfind1 ltac:(simpl; lia)) as IH1.
      cbv zeta in IH1.
      change (Book.available_quantity (Book.moved now (-1) b))
        with (Book.available_quantity b + -1) in IH1.
      change (Book.total_quantity (Book.moved now (-1) b))
        with (Book.total_quantity b) in IH1.
      destruct IH1 as (Hoks & b' & Hb' & Hav & Htot).
      replace (Nat.min (S (List.length nows))
                 (Z.to_nat (Book.available_quantity b)))
        with (S (Nat.min (List.length nows)
                   (Z.to_nat (Book.available_quantity b + -1)))) by lia.
      destruct (borrow_times nows w1 id) as [oks w2].
      cbn [fst snd] in *. split.
      * simpl. by rewrite Hoks.
      * exists b'. split; [done|]. split; [lia | done].
    + assert (Hfail : borrow_book now w id = (false, w)).
      { unfold borrow_book. rewrite Hfind.
        destruct (Z.leb_spec (Book.available_quantity b) 0); [done | lia]. }
      rewrite Hfail.
      pose proof (IH w b Hfind Hinv) as IH1. cbv zeta in IH1.
      destruct IH1 as (Hoks & b' & Hb' & Hav & Htot).
      replace (Nat.min (S (List.length nows))
                 (Z.to_nat (Book.available_quantity b))) with 0%nat by lia.
      replace (Nat.min (List.length nows)
                 (Z.to_nat (Book.available_quantity b))) with 0%nat in *
        by lia.
      destruct (borrow_times nows w id) as [oks w2].
      cbn [fst snd] in *. split.
      * simpl. rewrite Hoks. simpl. by rewrite Nat.sub_0_r.
      * exists b'. split; [done|]. split; [lia | done].
Qed.

Lemma borrow_until_exhausted_witness :
  let w := Examples.after [Examples.add_python 10 2] in
  (borrow_times [20; 30; 40; 50] w 1).1 = [true; true; false; false] /\
  exists b',
    get_book_by_id (borrow_times [20; 30; 40; 50] w 1).2 1
      = Some (0%nat, b') /\
    Book.available_quantity b' = 0.
Proof.
  intros w.
  destruct (borrow_until_exhausted [20; 30; 40; 50] w 1 0%nat _ eq_refl
              ltac:(vm_compute; split; discriminate))
    as (Hoks & b' & Hb' & Hav & _).
  split; [exact Hoks|]. exists b'. split; [exact Hb'|]. exact Hav.
Defined.

End exhausting.

(** ** What sequences of calls keep *)

Section keeping.
Context `{Runtime}.
Import BookRepository BookService Notions.

(** The books stored after a cell has been written. *)
Lemma stored_write (w : state) (r : ref) (b b' : Book.t) (r1 : ref)
    (b1 : Book.t) :
  heap w !! r = Some b ->
  stored (State (<[r := b']> (heap w)) (service w)) r1 b1 ->
  exists b0, stored w r1 b0 /\
             ((r1 = r /\ b1 = b' /\ b0 = b) \/ (r1 <> r /\ b1 = b0)).
Proof.
  intros Hr [Hin Hr1]. unfold repo in Hin. simpl in *.
  destruct (decide (r1 = r)) as [->|Hne].
  - rewrite list_lookup_insert_eq in Hr1 by (by eapply lookup_lt_Some).
    injection Hr1 as <-. exists b. split; [done|]. by left.
  - rewrite list_lookup_insert_ne in Hr1 by done.
    exists b1. split; [done|]. by right.
Qed.

Lemma stored_delete (w : state) (id : Z) (r : ref) (b : Book.t) :
  stored (delete_book w id).2 r b -> stored w r b.
Proof.
  pose proof (delete_book_result w id) as Hres.
  destruct (index_where (heap w) (has_id (Some id)) (_books (repo w)));
    rewrite Hres; [|done].
  intros [Hin Hr]. unfold repo in Hin. simpl in *.
  split; [by eapply elem_of_delete | done].
Qed.

(** The books stored after an [add_book] that does not raise. *)
Lemma stored_add (w : state) (new : Book.t) (n : Z) (r1 : ref)
    (b1 : Book.t) :
  wf w ->
  stored (State (heap w ++ [new])
            (BookService.mk
               (BookRepository.mk
                  (_books (repo w) ++ [List.length (heap w)]) n))) r1 b1 ->
  stored w r1 b1 \/ (r1 = List.length (heap w) /\ b1 = new).
Proof.
  intros (_ & _ & Halloc & _) [Hin Hr1]. unfold repo in Hin.
  simpl in Hin, Hr1. fold (repo w) in Hin.
  apply elem_of_app in Hin as [Hin|Hin].
  - left. split; [done|].
    destruct (Halloc r1 Hin) as (b & m & Hb & _).
    by rewrite lookup_app_l in Hr1 by (by eapply lookup_lt_Some).
  - right. apply list_elem_of_singleton in Hin as ->. split; [done|].
    rewrite (list_lookup_middle _ [] _ _ eq_refl) in Hr1.
    by injection Hr1.
Qed.

(** Where [borrow_book] and [return_book] leave the state: as it was, or
    with the book found replaced by what [update_quantity] made of it. *)
Lemma borrow_book_state (now : datetime) (w : state) (id : Z) :
  (borrow_book now w id).2 = w \/
  exists r b, find_by_id (heap w) (repo w) id = Some (r, b) /\
    (borrow_book now w id).2
    = State (<[r := (Book.update_quantity now b (-1)).2]> (heap w))
        (service w).
Proof.
  unfold borrow_book.
  destruct (find_by_id (heap w) (repo w) id) as [[r b]|]; [|by left].
  destruct (Book.available_quantity b <=? 0); [by left|].
  right. exists r, b. split; [done|].
  by destruct (Book.update_quantity now b (-1)).
Qed.

Lemma return_book_state (now : datetime) (w : state) (id : Z) :
  (return_book now w id).2 = w \/
  exists r b, find_by_id (heap w) (repo w) id = Some (r, b) /\
    (return_book now w id).2
    = State (<[r := (Book.update_quantity now b 1).2]> (heap w))
        (service w).
Proof.
  unfold return_book.
  destruct (find_by_id (heap w) (repo w) id) as [[r b]|]; [|by left].
  destruct (Book.available_quantity b >=? Book.total_quantity b);
    [by left|].
  right. exists r, b. split; [done|].
  by destruct (Book.update_quantity now b 1).
Qed.

Lemma update_quantity_keeps_bounds (now : datetime) (b : Book.t) (d : Z) :
  0 <= Book.available_quantity b <= Book.total_quantity b ->
  0 <= Book.available_quantity (Book.update_quantity now b d).2
    <= Book.total_quantity (Book.update_quantity now b d).2.
Proof.
  intros Hinv.
  destruct (decide (0 <= Book.available_quantity b + d
                    <= Book.total_quantity b)) as [Hin|Hout].
  - rewrite (update_quantity_true now b d Hin). simpl. lia.
  - by rewrite (update_quantity_false now b d Hout).
Qed.

Lemma update_quantity_isbn (now : datetime) (b : Book.t) (d : Z) :
  Book.isbn (Book.update_quantity now b d).2 = Book.isbn b.
Proof.
  unfold Book.update_quantity. by destruct (_ && _).
Qed.

(** A property of states that every permitted call keeps, from states of
    the shape [wf], holds after every sequence of permitted calls whose
    keywords name fields only; and such a sequence runs to the end. *)
Lemma run_keeps (I : state -> Prop) (permitted : call -> bool) :
  I init ->
  (forall w c w' assigned, wf w -> I w ->
     Notions.plain c = true -> permitted c = true ->
     step w c = Some (w', assigned) -> I w') ->
  forall calls,
    forallb (fun c => Notions.plain c && permitted c) calls = true ->
    exists w ids, run init calls = Some (w, ids) /\ I w.
Proof.
  intros Hinit Hstep calls.
  assert (Hgen : forall w0, wf w0 -> I w0 ->
            forallb (fun c => Notions.plain c && permitted c) calls = true ->
            exists w1 ids1, run w0 calls = Some (w1, ids1) /\ I w1).
  { induction calls as [|c calls IH]; intros w0 Hwf HI; simpl.
    - intros _. by exists w0, [].
    - intros [[Hp Hc]%andb_true_iff Hcalls]%andb_true_iff.
      destruct (step_plain w0 c Hp) as (w2 & a & Hs). rewrite Hs. simpl.
      destruct (IH w2) as (w3 & ids3 & Hrun & HI3);
        [by eapply wf_step | by eapply Hstep | done |].
      rewrite Hrun. simpl. eauto. }
  by apply Hgen; [apply wf_init|].
Qed.

End keeping.

Section kept.
Context `{Runtime}.
Import BookRepository BookService Notions.

Lemma in_stock_write (w : state) (r : ref) (b b' : Book.t) :
  heap w !! r = Some b ->
  0 <= Book.available_quantity b' <= Book.total_quantity b' ->
  in_stock w -> in_stock (State (<[r := b']> (heap w)) (service w)).
Proof.
  intros Hr Hb' Hin r1 b1 Hst.
  destruct (stored_write w r b b' r1 b1 Hr Hst)
    as (b0 & Hst0 & [(_ & -> & _) | (_ & ->)]); [done | by eapply Hin].
Qed.

Lemma in_stock_step (w w' : state) (c : call) (assigned : option Z) :
  wf w -> in_stock w -> plain c = true -> keeps_quantities c = true ->
  step w c = Some (w', assigned) -> in_stock w'.
Proof.
  intros Hwf Hin Hplain Hc. destruct c; simpl in Hc, Hplain |- *.
  - unfold add_book.
    destruct (find_by_isbn (heap w) (repo w) isbn) as [[r b]|];
      [by intros [= <- _]|].
    unfold alloc. rewrite save_new by done. intros [= <- _].
    intros r1 b1 Hst. apply (stored_add w _ _ r1 b1 Hwf) in Hst
      as [Hst | [_ ->]]; [by eapply Hin|].
    apply Z.leb_le in Hc. simpl. lia.
  - by intros [= <- _].
  - by intros [= <- _].
  - by intros [= <- _].
  - by intros [= <- _].
  - destruct (decide (kwargs_bound kwargs)); [|discriminate].
    apply andb_true_iff in Hc as [Htot Hav].
    apply negb_true_iff, bool_decide_eq_false in Htot, Hav.
    unfold update_book.
    destruct (find_by_id (heap w) (repo w) book_id) as [[r b]|] eqn:Hfind;
      simpl; [|by intros [= <- _]].
    destruct (apply_kwargs b kwargs) as [b'|] eqn:Hrun; simpl;
      [|discriminate].
    intros [= <- _].
    apply find_by_id_stored in Hfind as [Hst _].
    apply andb_true_iff in Hplain as [_ Hdict%representable_no_dict].
    pose proof (apply_kwargs_keeps kwargs b b' Attr.total_quantity Hdict
                  Htot Hrun) as Ht.
    pose proof (apply_kwargs_keeps kwargs b b' Attr.available_quantity
                  Hdict Hav Hrun) as Ha.
    simpl in Ht, Ha. injection Ht as Ht. injection Ha as Ha.
    apply (in_stock_write w r b); [by destruct Hst | | done].
    rewrite Ht, Ha. by eapply Hin.
  - intros [= <- _] r b Hst. apply stored_delete in Hst. by eapply Hin.
  - intros [= <- _].
    destruct (borrow_book_state now w book_id) as [-> | (r & b & Hfind & ->)];
      [done|].
    apply find_by_id_stored in Hfind as [Hst _].
    apply (in_stock_write w r b); [by destruct Hst | | done].
    apply update_quantity_keeps_bounds. by eapply Hin.
  - intros [= <- _].
    destruct (return_book_state now w book_id) as [-> | (r & b & Hfind & ->)];
      [done|].
    apply find_by_id_stored in Hfind as [Hst _].
    apply (in_stock_write w r b); [by destruct Hst | | done].
    apply update_quantity_keeps_bounds. by eapply Hin.
Qed.

(** X15.  Any sequence of calls on a new service in which every
    [add_book] gives a total that is not negative and every [update_book]
    passes keywords that name fields only (data attributes with values of
    their types, or names that are no attribute of a book), neither
    [total_quantity] nor [available_quantity] among them, runs to the end,
    and then every stored book has
    [0 <= available_quantity <= total_quantity]: borrowing, returning,
    deleting and such updates never take a quantity out of bounds. *)
Theorem quantities_stay_in_bounds (calls : list call) :
  forallb (fun c => plain c && keeps_quantities c) calls = true ->
  exists w ids,
    run init calls = Some (w, ids) /\
    forall r b, stored w r b ->
      0 <= Book.available_quantity b <= Book.total_quantity b.
Proof.
  intros Hcalls.
  apply (run_keeps in_stock keeps_quantities); try done.
  - intros r b [Hin _]. inversion Hin.
  - intros w0 c w1 a. apply in_stock_step.
Qed.

Lemma isbn_unique_write (w : state) (r : ref) (b b' : Book.t) :
  heap w !! r = Some b ->
  Book.isbn b' = Book.isbn b ->
  isbn_unique w -> isbn_unique (State (<[r := b']> (heap w)) (service w)).
Proof.
  intros Hr Hisbn Hun r1 r2 b1 b2 Hst1 Hst2 Heq.
  destruct (stored_write w r b b' r1 b1 Hr Hst1) as (c1 & Hc1 & Hcase1).
  destruct (stored_write w r b b' r2 b2 Hr Hst2) as (c2 & Hc2 & Hcase2).
  apply (Hun r1 r2 c1 c2); [done | done |].
  destruct Hcase1 as [(_ & -> & ->) | (_ & ->)];
    destruct Hcase2 as [(_ & -> & ->) | (_ & ->)]; congruence.
Qed.

Lemma isbn_unique_step (w w' : state) (c : call) (assigned : option Z) :
  wf w -> isbn_unique w -> plain c = true -> keeps_isbn c = true ->
  step w c = Some (w', assigned) -> isbn_unique w'.
Proof.
  intros Hwf Hun Hplain Hc. destruct c; simpl in Hc, Hplain |- *.
  - unfold add_book.
    destruct (find_by_isbn (heap w) (repo w) isbn) as [[r b]|] eqn:Hfind;
      [by intros [= <- _]|].
    unfold alloc. rewrite save_new by done. intros [= <- _].
    pose proof (proj1 (find_by_isbn_None w isbn) Hfind) as Hfree.
    intros r1 r2 b1 b2 Hst1 Hst2 Heq.
    apply (stored_add w _ _ r1 b1 Hwf) in Hst1 as [Hst1 | [-> ->]];
      apply (stored_add w _ _ r2 b2 Hwf) in Hst2 as [Hst2 | [-> ->]].
    + by apply (Hun r1 r2 b1 b2).
    + simpl in Heq. by destruct (Hfree r1 b1 Hst1).
    + simpl in Heq. by destruct (Hfree r2 b2 Hst2).
    + done.
  - by intros [= <- _].
  - by intros [= <- _].
  - by intros [= <- _].
  - by intros [= <- _].
  - destruct (decide (kwargs_bound kwargs)); [|discriminate].
    apply negb_true_iff, bool_decide_eq_false in Hc.
    unfold update_book.
    destruct (find_by_id (heap w) (repo w) book_id) as [[r b]|] eqn:Hfind;
      simpl; [|by intros [= <- _]].
    destruct (apply_kwargs b kwargs) as [b'|] eqn:Hrun; simpl;
      [|discriminate].
    intros [= <- _].
    apply find_by_id_stored in Hfind as [[_ Hr] _].
    apply andb_true_iff in Hplain as [_ Hdict%representable_no_dict].
    pose proof (apply_kwargs_keeps kwargs b b' Attr.isbn Hdict Hc Hrun)
      as Hi.
    simpl in Hi. injection Hi as Hi.
    by apply (isbn_unique_write w r b).
  - intros [= <- _] r1 r2 b1 b2 Hst1 Hst2.
    apply stored_delete in Hst1, Hst2. by apply Hun.
  - intros [= <- _].
    destruct (borrow_book_state now w book_id) as [-> | (r & b & Hfind & ->)];
      [done|].
    apply find_by_id_stored in Hfind as [[_ Hr] _].
    apply (isbn_unique_write w r b); [done | | done].
    apply update_quantity_isbn.
  - intros [= <- _].
    destruct (return_book_state now w book_id) as [-> | (r & b & Hfind & ->)];
      [done|].
    apply find_by_id_stored in Hfind as [[_ Hr] _].
    apply (isbn_unique_write w r b); [done | | done].
    apply update_quantity_isbn.
Qed.

(** X16.  Any sequence of calls on a new service in which every
    [update_book] passes keywords that name fields only (data attributes
    with values of their types, or names that are no attribute of a book),
    [isbn] not among them, runs to the end, and then no two stored books
    share an ISBN: [add_book] is the only other way an ISBN enters the
    store, and it refuses one that is taken. *)
Theorem isbn_stays_unique (calls : list call) :
  forallb (fun c => plain c && keeps_isbn c) calls = true ->
  exists w ids,
    run init calls = Some (w, ids) /\
    forall r1 r2 b1 b2, stored w r1 b1 -> stored w r2 b2 ->
      Book.isbn b1 = Book.isbn b2 -> r1 = r2.
Proof.
  intros Hcalls.
  apply (run_keeps isbn_unique keeps_isbn); try done.
  - intros r1 r2 b1 b2 [Hin _]. inversion Hin.
  - intros w0 c w1 a. apply isbn_unique_step.
Qed.

End kept.

Lemma quantities_stay_in_bounds_witness :
  let calls := [Examples.add_python 10 1; BookService.BorrowBook 20 1;
                BookService.BorrowBook 30 1; BookService.ReturnBook 40 1;
                BookService.ReturnBook 50 1;
                BookService.UpdateBook 1 [("price", PyFloat price_99)]] in
  exists w b,
    BookService.run (H := ascii_runtime) BookService.init calls
      = Some (w, [1]) /\
    BookService.get_book_by_id w 1 = Some (0%nat, b) /\
    0 <= Book.available_quantity b <= Book.total_quantity b.
Proof.
  intros calls.
  destruct (quantities_stay_in_bounds (H := ascii_runtime) calls eq_refl)
    as (w & ids & Hrun & Hin).
  assert (Hw : BookService.run (H := ascii_runtime) BookService.init calls
               = Some (w, [1])).
  { rewrite Hrun. vm_compute in Hrun. by injection Hrun as _ <-. }
  assert (Hfind : exists b, BookService.get_book_by_id w 1 = Some (0%nat, b)).
  { vm_compute in Hrun. injection Hrun as <- _. by eexists. }
  destruct Hfind as [b Hfind]. exists w, b.
  split; [exact Hw|]. split; [exact Hfind|].
  apply (Hin 0%nat). by apply find_by_id_stored in Hfind as [Hst _].
Defined.

Lemma isbn_stays_unique_witness :
  let calls := [Examples.add_python 10 1; Examples.add_python 20 4;
                Examples.add_rust 30 2;
                BookService.UpdateBook 2 [("title", PyStr "Rust")]] in
  exists w,
    BookService.run (H := ascii_runtime) BookService.init calls
      = Some (w, [1; 2]) /\
    Notions.isbn_unique w.
Proof.
  intros calls.
  destruct (isbn_stays_unique (H := ascii_runtime) calls eq_refl)
    as (w & ids & Hrun & Hun).
  exists w. split; [|exact Hun].
  rewrite Hrun. vm_compute in Hrun. by injection Hrun as _ <-.
Defined.

(** ** Replacing a stored book *)

Section replacing.
Import BookRepository.

Lemma first_where_replace (h : Heap) (p : Book.t -> bool)
    (books : list ref) (i : nat) (book : ref) (b : Book.t) :
  index_where h p books = Some i ->
  h !! book = Some b -> p b = true ->
  first_where h p (<[i := book]> books) = Some (book, b).
Proof.
  intros Hi Hbook Hp. revert i Hi.
  induction books as [|r0 books IH]; intros i; simpl; [discriminate|].
  unfold holds. destruct (h !! r0) as [b0|] eqn:Hr0.
  - destruct (p b0) eqn:Hp0.
    + intros [= <-]. simpl. by rewrite Hbook, Hp.
    + destruct (index_where h p books) as [i'|]; simpl; [|discriminate].
      intros [= <-]. simpl. rewrite Hr0, Hp0. by apply IH.
  - destruct (index_where h p books) as [i'|]; simpl; [|discriminate].
    intros [= <-]. simpl. rewrite Hr0. by apply IH.
Qed.

(** X17.  [BookRepository.update(book)] returns true exactly when the
    store holds a book with [book]'s identifier; it then puts [book] in
    the place of the first such book, so that a lookup by that identifier
    finds [book], and the list keeps its length; otherwise it returns
    false and changes nothing.  It never touches the counter.  [save] of a
    book whose identifier is neither [None] nor 0 does to the store what
    [update] does. *)
Theorem repository_update_replaces (h : Heap) (self : BookRepository.t)
    (book : ref) (b : Book.t) :
  h !! book = Some b ->
  let out := update h self book in
  (out.1 = true <->
     exists r c, r ∈ _books self /\ h !! r = Some c
                 /\ Book.book_id c = Book.book_id b) /\
  (out.1 = false -> out.2 = self) /\
  (out.1 = true ->
     exists i, (i < List.length (_books self))%nat
               /\ _books out.2 = <[i := book]> (_books self)) /\
  (out.1 = true ->
     forall id, Book.book_id b = Some id ->
       find_by_id h out.2 id = Some (book, b)) /\
  List.length (_books out.2) = List.length (_books self) /\
  _next_id out.2 = _next_id self /\
  (Book.book_id b <> None -> Book.book_id b <> Some 0 ->
     save h self book = (h, out.2)).
Proof.
  intros Hbook out. subst out. unfold update, save. rewrite Hbook.
  destruct (index_where h (has_id (Book.book_id b)) (_books self))
    as [i|] eqn:Hi; simpl.
  - pose proof (index_where_Some _ _ _ _ Hi)
      as (r0 & b0 & Hl & Hr0 & Hp0 & _ & _).
    apply has_id_true in Hp0.
    split; [split; [intros _ | done]|].
    { exists r0, b0. split; [by eapply list_elem_of_lookup_2 | done]. }
    split; [discriminate|]. split.
    { intros _. exists i. split; [by eapply lookup_lt_Some | done]. }
    split.
    { intros _ id Hid. unfold find_by_id. simpl. rewrite <- Hid.
      apply first_where_replace; [done | done |]. by apply has_id_true. }
    split; [by rewrite length_insert|]. split; [done|].
    intros Hnone Hzero.
    rewrite bool_decide_eq_false_2, bool_decide_eq_false_2 by done. done.
  - split; [split; [discriminate|]|].
    { intros (r & c & Hin & Hr & Hid). apply index_where_None in Hi.
      pose proof (proj1 (first_where_None _ _ _) Hi r c Hin Hr) as Hf.
      apply has_id_false in Hf. done. }
    split; [done|]. split; [discriminate|]. split; [discriminate|].
    split; [done|]. split; [done|].
    intros Hnone Hzero.
    rewrite bool_decide_eq_false_2, bool_decide_eq_false_2 by done. done.
Qed.

Lemma repository_update_replaces_witness :
  let w := Examples.after [Examples.add_python 10 5; Examples.add_rust 20 2] in
  let b := Book.__init__ 30 31 (Some 2) "9787111647813" "Rust in Depth"
             "Luciano Ramalho" "China Machine Press" 0 2 price_99 4 in
  let h := BookService.heap w ++ [b] in
  (update h (BookService.repo w) 2%nat).1 = true /\
  find_by_id h (update h (BookService.repo w) 2%nat).2 2
    = Some (2%nat, b) /\
  _books (update h (BookService.repo w) 2%nat).2 = [0%nat; 2%nat].
Proof.
  intros w b h.
  destruct (repository_update_replaces h (BookService.repo w) 2%nat b
              eq_refl) as (Htrue & _ & _ & Hfind & _).
  assert (Hok : (update h (BookService.repo w) 2%nat).1 = true).
  { apply Htrue. exists 1%nat. eexists. split; [|split; reflexivity].
    by apply (bool_decide_unpack _). }
  split; [exact Hok|]. split; [by apply Hfind|]. reflexivity.
Defined.

End replacing.

(** ** Lookups after other calls *)

Section lookups.
Context `{Runtime}.
Import BookRepository BookService Notions.

(** X18.  [get_book_by_isbn] finds nothing exactly when no stored book
    has the ISBN; what it finds is a stored book with that ISBN, the first
    in the store's order; and when no two stored books share an ISBN it
    finds every stored book by its ISBN. *)
Theorem get_book_by_isbn_iff_stored (w : state) (isbn : string) :
  (get_book_by_isbn w isbn = None <->
     forall r b, stored w r b -> Book.isbn b <> isbn) /\
  (forall r b, get_book_by_isbn w isbn = Some (r, b) ->
     stored w r b /\ Book.isbn b = isbn) /\
  (isbn_unique w ->
   forall r b, stored w r b -> Book.isbn b = isbn ->
     get_book_by_isbn w isbn = Some (r, b)).
Proof.
  unfold get_book_by_isbn. split; [apply find_by_isbn_None|].
  split; [apply find_by_isbn_Some|].
  intros Hun r b Hst Hisbn.
  destruct (find_by_isbn (heap w) (repo w) isbn) as [[r' b']|] eqn:Hfind.
  - apply find_by_isbn_Some in Hfind as [Hst' Hisbn'].
    assert (r' = r) as -> by (apply (Hun r' r b' b); congruence).
    destruct Hst as [_ Hr], Hst' as [_ Hr']. congruence.
  - exfalso. by apply (proj1 (find_by_isbn_None w isbn) Hfind r b).
Qed.

(** X19.  An [update_book] that finds its book and whose keywords name
    fields only (data attributes with values of their types, or names that
    are no attribute of a book) returns the object that [get_book_by_id]
    found; afterwards [get_book_by_id] with the same identifier finds that
    same object, each attribute named by a keyword holding the value
    given: such a call cannot change the identifier of a book, since
    Python binds the keyword [book_id] to the parameter, and what the
    store lists is unchanged. *)
Theorem update_book_then_found (w : state) (id : Z)
    (kwargs : list (string * pyval)) (r : ref) (b : Book.t) :
  get_book_by_id w id = Some (r, b) ->
  kwargs_bound kwargs ->
  representable kwargs = true ->
  exists b' w',
    update_book w id kwargs = Some (Some r, w') /\
    get_book_by_id w' id = Some (r, b') /\
    Book.book_id b' = Some id /\
    (forall a v, (Attr.name a, v) ∈ kwargs -> Attr.get a b' = v) /\
    get_all_books w' = get_all_books w.
Proof.
  unfold get_book_by_id. intros Hfind (Hnd & _ & Hnot) Hrep.
  destruct (apply_kwargs_sets kwargs b Hnd Hrep)
    as (b' & Hrun & Hgiven & _).
  pose proof (apply_kwargs_book_id kwargs b b'
                (representable_no_dict kwargs Hrep) Hnot Hrun) as Hid.
  exists b'. eexists. unfold update_book. rewrite Hfind, Hrun. simpl.
  split; [done|].
  split; [by apply (find_by_id_write w id r b)|].
  apply find_by_id_stored in Hfind as [_ Hb].
  split; [congruence|]. split; done.
Qed.

End lookups.

Lemma get_book_by_isbn_iff_stored_witness :
  let w := Examples.after [Examples.add_python 10 5; Examples.add_rust 20 2] in
  BookService.get_book_by_isbn w "0000000000000" = None /\
  exists b, BookService.get_book_by_isbn w "9787111647813"
            = Some (1%nat, b).
Proof.
  intros w.
  destruct (get_book_by_isbn_iff_stored w "0000000000000") as (Hnone & _).
  destruct (get_book_by_isbn_iff_stored w "9787111647813") as (_ & _ & Hall).
  split.
  - apply Hnone. intros r b [Hin Hr].
    vm_compute in Hin.
    apply elem_of_cons in Hin as [->|Hin];
      [|apply list_elem_of_singleton in Hin as ->];
      vm_compute in Hr; injection Hr as <-; discriminate.
  - eexists. apply Hall.
    + intros r1 r2 b1 b2 [Hin1 Hr1] [Hin2 Hr2] Heq.
      vm_compute in Hin1, Hin2.
      apply elem_of_cons in Hin1 as [->|Hin1];
        [|apply list_elem_of_singleton in Hin1 as ->];
        (apply elem_of_cons in Hin2 as [->|Hin2];
         [|apply list_elem_of_singleton in Hin2 as ->]);
        try reflexivity;
        vm_compute in Hr1, Hr2;
        injection Hr1 as <-; injection Hr2 as <-; discriminate.
    + split; [by apply (bool_decide_unpack _) | reflexivity].
    + reflexivity.
Defined.

Lemma update_book_then_found_witness :
  let w := Examples.after [Examples.add_python 10 5; Examples.add_rust 20 2] in
  exists w' b',
    BookService.update_book (H := ascii_runtime) w 2
      [("title", PyStr "Rust in Depth"); ("total_quantity", PyInt 9)]
    = Some (Some 1%nat, w') /\
    BookService.get_book_by_id w' 2 = Some (1%nat, b') /\
    Book.title b' = "Rust in Depth" /\
    Book.total_quantity b' = 9.
Proof.
  intros w.
  destruct (update_book_then_found (H := ascii_runtime) w 2
              [("title", PyStr "Rust in Depth"); ("total_quantity", PyInt 9)]
              1%nat _ eq_refl
              ltac:(by apply (bool_decide_unpack _)) eq_refl)
    as (b' & w' & Hup & Hfind & _ & Hgiven & _).
  exists w', b'. split; [exact Hup|]. split; [exact Hfind|].
  pose proof (Hgiven Attr.title (PyStr "Rust in Depth") ltac:(left)) as Ht.
  pose proof (Hgiven Attr.total_quantity (PyInt 9)
                ltac:(right; left)) as Hq.
  simpl in Ht, Hq. injection Ht as ->. injection Hq as ->. done.
Defined.

(** ** Adding again after deleting *)

Section readding.
Import BookRepository BookService Notions.

(** X20.  In a store that lists no book twice and in which no two stored
    books share an ISBN: after [delete_book] has removed a book whose
    identifier is below the counter, an [add_book] with that book's ISBN
    does not raise; the book it adds gets the counter's value as
    identifier, which is not the identifier of the deleted book, and is a
    new object. *)
Theorem add_again_after_delete (now1 now2 : datetime) (w : state) (id : Z)
    (r : ref) (b : Book.t) (title author publisher : string)
    (publish_date : datetime) (category_id : Z) (price : float)
    (total_quantity : Z) :
  NoDup (_books (repo w)) -> isbn_unique w ->
  get_book_by_id w id = Some (r, b) ->
  id < _next_id (repo w) ->
  let w1 := (delete_book w id).2 in
  exists book w2 b2,
    add_book now1 now2 w1 (Book.isbn b) title author publisher
      publish_date category_id price total_quantity = (Return book, w2) /\
    get_book_by_isbn w2 (Book.isbn b) = Some (book, b2) /\
    Book.book_id b2 = Some (_next_id (repo w)) /\
    _next_id (repo w) <> id /\
    book <> r.
Proof.
  intros Hnd Hun Hfind Hbelow w1.
  pose proof (delete_book_result w id) as Hres.
  unfold get_book_by_id, find_by_id in Hfind.
  destruct (index_where (heap w) (has_id (Some id)) (_books (repo w)))
    as [i|] eqn:Hi.
  2: { apply index_where_None in Hi. congruence. }
  apply index_where_Some in Hi as (r0 & b0 & Hl & Hr0 & _ & Hfirst & _).
  rewrite Hfirst in Hfind. injection Hfind as -> ->.
  assert (Hst : stored w r b)
    by (split; [by eapply list_elem_of_lookup_2 | done]).
  assert (Hnone : find_by_isbn (heap w1) (repo w1) (Book.isbn b) = None).
  { subst w1. rewrite Hres. unfold find_by_isbn, repo. simpl.
    apply (first_where_delete_only _ _ _ i r); [done | done |].
    intros r' b' Hin Hr' Heq. apply String.eqb_eq in Heq.
    by apply (Hun r' r b' b). }
  destruct (add_book_fresh now1 now2 w1 (Book.isbn b) title author
              publisher publish_date category_id price total_quantity
              Hnone) as (Hadd & Hisbn & _).
  assert (Hnext : _next_id (repo w1) = _next_id (repo w))
    by (subst w1; by rewrite Hres).
  assert (Hheap : heap w1 = heap w) by (subst w1; by rewrite Hres).
  eexists _, _, _. split; [exact Hadd|]. split; [exact Hisbn|].
  split; [simpl; by rewrite Hnext|]. split; [lia|].
  rewrite Hheap. destruct Hst as [_ Hr]. apply lookup_lt_Some in Hr. lia.
Qed.

Lemma add_again_after_delete_witness :
  let w := Examples.after [Examples.add_python 10 5] in
  exists w2 b2,
    add_book 30 31 (delete_book w 1).2 "9787115546081" "Python Guide"
      "Eric Matthes" "Posts and Telecom Press" 0 1 price_89 3
    = (Return 1%nat, w2) /\
    get_book_by_isbn w2 "9787115546081" = Some (1%nat, b2) /\
    Book.book_id b2 = Some 2.
Proof.
  intros w.
  assert (Hun : isbn_unique w).
  { intros r1 r2 b1 b2 [Hin1 _] [Hin2 _] _. vm_compute in Hin1, Hin2.
    apply list_elem_of_singleton in Hin1, Hin2. congruence. }
  destruct (add_again_after_delete 30 31 w 1 0%nat _ "Python Guide"
              "Eric Matthes" "Posts and Telecom Press" 0 1 price_89 3
              ltac:(by apply (bool_decide_unpack _)) Hun eq_refl
              ltac:(vm_compute; reflexivity))
    as (book & w2 & b2 & Hadd & Hisbn & Hid & _).
  assert (book = 1%nat) as ->.
  { vm_compute in Hadd. by injection Hadd. }
  exists w2, b2. split; [exact Hadd|]. split; [exact Hisbn|]. exact Hid.
Defined.

End readding.

(** ** The references the store lists *)

Section listing.
Context `{Runtime}.
Import BookRepository BookService Notions.

Lemma listed_write (w : state) (r : ref) (b' : Book.t) :
  listed w -> listed (State (<[r := b']> (heap w)) (service w)).
Proof.
  intros [Hnd Hlt]. split; [done|]. intros r1 Hin. simpl.
  rewrite length_insert. by apply Hlt.
Qed.

Lemma listed_step (w w' : state) (c : call) (assigned : option Z) :
  listed w -> step w c = Some (w', assigned) -> listed w'.
Proof.
  intros Hl. destruct c; simpl.
  - unfold add_book.
    destruct (find_by_isbn (heap w) (repo w) isbn) as [[r b]|];
      [by intros [= <- _]|].
    unfold alloc. rewrite save_new by done. intros [= <- _].
    destruct Hl as [Hnd Hlt]. split; unfold repo; simpl; fold (repo w).
    + apply NoDup_app. split; [done|]. split; [|apply NoDup_singleton].
      intros r Hin Hnew. apply list_elem_of_singleton in Hnew.
      apply Hlt in Hin. lia.
    + intros r Hin. rewrite length_app. simpl.
      apply elem_of_app in Hin as [Hin|Hin].
      * apply Hlt in Hin. lia.
      * apply list_elem_of_singleton in Hin. lia.
  - by intros [= <- _].
  - by intros [= <- _].
  - by intros [= <- _].
  - by intros [= <- _].
  - destruct (decide (kwargs_bound kwargs)); [|discriminate].
    unfold update_book.
    destruct (find_by_id (heap w) (repo w) book_id) as [[r b]|];
      simpl; [|by intros [= <- _]].
    destruct (apply_kwargs b kwargs) as [b'|]; simpl; [|discriminate].
    intros [= <- _]. by apply listed_write.
  - intros [= <- _]. pose proof (delete_book_result w book_id) as Hres.
    destruct (index_where (heap w) (has_id (Some book_id))
                (_books (repo w))) as [i|]; rewrite Hres; [|done].
    destruct Hl as [Hnd Hlt]. split; unfold repo; simpl; fold (repo w).
    + eapply sublist_NoDup; [done | apply sublist_delete].
    + intros r Hin. by eapply Hlt, elem_of_delete.
  - intros [= <- _].
    destruct (borrow_book_state now w book_id) as [-> | (r & b & _ & ->)];
      [done | by apply listed_write].
  - intros [= <- _].
    destruct (return_book_state now w book_id) as [-> | (r & b & _ & ->)];
      [done | by apply listed_write].
Qed.

(** After any sequence of calls the store lists no reference twice, and
    every reference it lists is allocated. *)
Lemma listed_run (calls : list call) (w : state) (ids : list Z) :
  run init calls = Some (w, ids) ->
  NoDup (_books (repo w)) /\
  forall r, r ∈ _books (repo w) -> is_Some (heap w !! r).
Proof.
  assert (Hgen : forall w0, listed w0 ->
            forall w1 ids1, run w0 calls = Some (w1, ids1) -> listed w1).
  { induction calls as [|c calls IH]; intros w0 Hl w1 ids1; simpl.
    - by intros [= <- _].
    - destruct (step w0 c) as [[w2 a]|] eqn:Hstep; simpl; [|discriminate].
      destruct (run w2 calls) as [[w3 ids3]|] eqn:Hrun; simpl;
        [|discriminate].
      intros [= <- _]. eapply IH; [|done]. by eapply listed_step. }
  intros Hrun. destruct (Hgen init) with w ids as [Hnd Hlt]; [|done|].
  - split; [constructor|]. intros r Hin. inversion Hin.
  - split; [done|]. intros r Hin. by apply lookup_lt_is_Some_2, Hlt.
Qed.

End listing.
